(** * xsdata: the JSON serializer and the command-line source resolver

    A shallow embedding of
    - [xsdata/formats/dataclass/serializers/json.py]
      ([filter_none], [JsonSerializer.convert], [write], [render]) and
    - [xsdata/cli.py] ([resolve_source]),
    followed by the properties the specification states about them.

    Definitions come first:
    - [Module Py]:    Python values as finite trees, and the builtins used;
    - [Module Json]:  the serializer over those values;
    - [Module Store]: the serializer over an object store with identities;
    - [Module Cli]:   [resolve_source];
    - [Module Samples], [StoreSamples], [CliSamples]: concrete inputs;
    then the facts, in [JsonFacts], [StoreFacts] and [CliFacts]. *)

From Stdlib Require Import List String Ascii ZArith Bool Lia PeanoNat.
Import ListNotations.

Set Implicit Arguments.
Open Scope string_scope.
Open Scope list_scope.
Set Warnings "-register-all".

(* ================================================================== *)
(** * Python values and builtins                                      *)
(* ================================================================== *)

Module Py.

(** Runtime types, as [type(obj)] reports them.  User classes are named;
    a dataclass, an [Enum] class and any other class are kept apart. *)
Inductive pytype : Type :=
| TNone | TBool | TInt | TFloat | TStr | TDict
| TList | TTuple
| TEnum (cls : string)
| TRecord (cls : string)
| TOpaque (cls : string).

(** The two builtin containers the serializer rebuilds with
    [type(obj)(...)]. *)
Inductive coll : Type := KList | KTuple.

(** Python objects reachable from a serializer input, as finite trees
    (the acyclic inputs the specification requires).

    - [PFloat] carries the IEEE-754 binary64 bit pattern.
    - [PDict] is an insertion-ordered map with text keys.
    - [PColl k items] is a built-in list or tuple.
    - [PEnum cls name value] is the member [cls.name] of a plain [Enum]
      class.  A member of an enumeration that mixes in [int] or [str]
      is an instance of that primitive type and is represented by it.
    - [PModel cls attrs] is an instance of dataclass [cls] with its
      attribute store.
    - [PArrayModel cls items] is an instance of a dataclass [cls] that
      subclasses [list] and declares no field, holding [items]: a
      record that is a collection as well.
    - [POpaque cls repr] is an instance of any other class (decimal,
      date, qualified name, set, ...), identified by its [repr]. *)
Inductive pyobj : Type :=
| PNone
| PBool (b : bool)
| PInt (z : Z)
| PFloat (bits : Z)
| PStr (s : string)
| PDict (items : list (string * pyobj))
| PColl (k : coll) (items : list pyobj)
| PEnum (cls name : string) (value : pyobj)
| PModel (cls : string) (attrs : list (string * pyobj))
| PArrayModel (cls : string) (items : list pyobj)
| POpaque (cls repr : string).

(** Exceptions.  [XmlContextError] is the specification's MetadataError,
    [ConverterError] its UnknownTypeError. *)
Inductive exn : Type :=
| XmlContextError (t : pytype)
| ConverterError (t : pytype)
| AttributeError (t : pytype) (attr : string)
| TypeError (msg : string)
| RecursionError.

(** A computation either returns or raises. *)
Inductive result (A : Type) : Type :=
| Ok (a : A)
| Raise (e : exn).
Arguments Ok {A} a.
Arguments Raise {A} e.

Definition bind {A B} (c : result A) (k : A -> result B) : result B :=
  match c with
  | Ok a => k a
  | Raise e => Raise e
  end.

Declare Scope py_scope.
Delimit Scope py_scope with py.
Notation "x <- c ;; k" := (bind c (fun x => k))
  (at level 61, c at next level, right associativity) : py_scope.
Open Scope py_scope.

(** A comprehension [[f(x) for x in xs]]: left to right, the first
    exception ends it. *)
Definition mapM {A B} (f : A -> result B) : list A -> result (list B) :=
  fix go (xs : list A) : result (list B) :=
    match xs with
    | [] => Ok []
    | x :: xs' => y <- f x ;; ys <- go xs' ;; Ok (y :: ys)
    end.

Definition type_of (obj : pyobj) : pytype :=
  match obj with
  | PNone => TNone
  | PBool _ => TBool
  | PInt _ => TInt
  | PFloat _ => TFloat
  | PStr _ => TStr
  | PDict _ => TDict
  | PColl KList _ => TList
  | PColl KTuple _ => TTuple
  | PEnum cls _ _ => TEnum cls
  | PModel cls _ => TRecord cls
  | PArrayModel cls _ => TRecord cls
  | POpaque cls _ => TOpaque cls
  end.

(** [obj is None] *)
Definition is_None (obj : pyobj) : bool :=
  match obj with PNone => true | _ => false end.

(** [isinstance(obj, (dict, int, float, str, bool))] *)
Definition isinstance_primitive (obj : pyobj) : bool :=
  match obj with
  | PDict _ | PInt _ | PFloat _ | PStr _ | PBool _ => true
  | _ => false
  end.

(** [isinstance(obj, Enum)] *)
Definition isinstance_Enum (obj : pyobj) : bool :=
  match obj with PEnum _ _ _ => true | _ => false end.

(** [obj.value] of an enumeration member. *)
Definition enum_value (obj : pyobj) : pyobj :=
  match obj with PEnum _ _ v => v | _ => PNone end.

(** The elements [for o in obj] visits. *)
Definition iter (obj : pyobj) : list pyobj :=
  match obj with
  | PColl _ items => items
  | PArrayModel _ items => items
  | _ => []
  end.

(** Attribute lookup in an instance's store. *)
Fixpoint lookup (name : string) (attrs : list (string * pyobj))
  : option pyobj :=
  match attrs with
  | [] => None
  | (n, v) :: rest => if String.eqb n name then Some v else lookup name rest
  end.

(** [getattr(obj, name)] *)
Definition getattr (obj : pyobj) (name : string) : result pyobj :=
  match obj with
  | PModel _ attrs =>
      match lookup name attrs with
      | Some v => Ok v
      | None => Raise (AttributeError (type_of obj) name)
      end
  | _ => Raise (AttributeError (type_of obj) name)
  end.

(** ** Dictionaries *)

(** [d[k] = v] on an insertion-ordered dictionary: an existing key keeps
    its position and takes the new value, a new key goes last. *)
Fixpoint dict_setitem {V : Type} (k : string) (v : V)
    (d : list (string * V)) : list (string * V) :=
  match d with
  | [] => [(k, v)]
  | (k', v') :: d' =>
      if String.eqb k' k then (k', v) :: d'
      else (k', v') :: dict_setitem k v d'
  end.

Definition dict_items {V : Type} (pairs : list (string * V))
  : list (string * V) :=
  fold_left (fun d kv => dict_setitem (fst kv) (snd kv) d) pairs [].

(** The builtin [dict] applied to a list of pairs. *)
Definition dict (pairs : list (string * pyobj)) : pyobj :=
  PDict (dict_items pairs).

Definition keys {V : Type} (d : list (string * V)) : list string :=
  map fst d.

(** ** Containers *)

(** The builtin container a runtime type names, if any. *)
Definition container_of (t : pytype) : option coll :=
  match t with
  | TList => Some KList
  | TTuple => Some KTuple
  | _ => None
  end.

(** [list(gen)] and [tuple(gen)] over the generator
    [(f(v) for v in xs)]. *)
Definition construct_coll (k : coll) (f : pyobj -> result pyobj)
    (xs : list pyobj) : result pyobj :=
  ys <- mapM f xs ;; Ok (PColl k ys).

(** [t(f(v) for v in xs)] for a runtime type [t].  A dataclass that
    declares no field takes no argument: called with the generator it
    raises TypeError before the generator is consumed. *)
Definition construct (t : pytype) (f : pyobj -> result pyobj)
    (xs : list pyobj) : result pyobj :=
  match container_of t with
  | Some k => construct_coll k f xs
  | None => Raise (TypeError "takes 1 positional argument but 2 were given")
  end.

End Py.

(* ================================================================== *)
(** * The serializer on values                                        *)
(* ================================================================== *)

Module Json.
Import Py.

(** Modelled from the spec: [XmlVar], the field descriptor, whose class
    is declared in [xsdata/formats/dataclass/models/elements.py].  The
    accessor name, the external name, the cardinality marker and the
    optional format hint are the attributes the specification lists;
    [convert] reads [name], [local_name] and [format]. *)
Record XmlVar : Type := mkXmlVar {
  name : string;
  local_name : string;
  list_element : bool;
  format : option string
}.

(** Modelled from the spec: [XmlContext], the Metadata Provider of
    [xsdata/formats/dataclass/context.py].  It maps a record type to
    its ordered field descriptors; a type it has no entry for cannot be
    described. *)
Record XmlContext : Type := mkXmlContext {
  descriptors : string -> option (list XmlVar)
}.

(** Modelled from the spec: [context.build(clazz).get_all_vars()].  The
    descriptors of a record type in declared order; MetadataError for a
    type the provider cannot describe. *)
Definition build (context : XmlContext) (clazz : pytype)
  : result (list XmlVar) :=
  match clazz with
  | TRecord cls =>
      match descriptors context cls with
      | Some vars => Ok vars
      | None => Raise (XmlContextError clazz)
      end
  | _ => Raise (XmlContextError clazz)
  end.

(** Modelled from the spec: [context.class_type.is_model(obj)].  A value
    is a Model Node when it is a record of a type the Metadata Provider
    can describe. *)
Definition is_model (context : XmlContext) (obj : pyobj) : bool :=
  match obj with
  | PModel cls _ | PArrayModel cls _ =>
      match descriptors context cls with Some _ => true | None => false end
  | _ => false
  end.

(** Modelled from the spec: [collections.is_array(obj)] of
    [xsdata/utils/collections.py].  The arrays are the ordered
    collections whose element order [convert] preserves: lists and
    fixed-size tuples, and with them the instances of their subclasses.
    A set is no array: it is an object of another class. *)
Definition is_array (obj : pyobj) : bool :=
  match obj with
  | PColl _ _ | PArrayModel _ _ => true
  | _ => false
  end.

(** Modelled from the spec: the Value Converter Registry behind
    [xsdata.formats.converter.converter].  An encoder per runtime type,
    taking the value and the optional format hint. *)
Definition ConverterFactory : Type :=
  pytype -> option (pyobj -> option string -> pyobj).

(** Modelled from the spec: [converter.serialize(obj, format=...)].
    Null encodes to null; any other value is encoded by the converter
    registered for its runtime type, and UnknownTypeError is raised
    when none is. *)
Definition serialize (converter : ConverterFactory) (obj : pyobj)
    (fmt : option string) : result pyobj :=
  match obj with
  | PNone => Ok PNone
  | _ =>
      match converter (type_of obj) with
      | Some encode => Ok (encode obj fmt)
      | None => Raise (ConverterError (type_of obj))
      end
  end.

(** [filter_none] (json.py, line 20):
    [{k: v for k, v in x if v is not None}]. *)
Definition filter_none (x : list (string * pyobj)) : pyobj :=
  PDict
    (fold_left
       (fun d kv => if negb (is_None (snd kv))
                    then dict_setitem (fst kv) (snd kv) d else d)
       x []).

(** [class DictFactory] *)
Module DictFactory.
Definition FILTER_NONE : list (string * pyobj) -> pyobj := filter_none.
End DictFactory.

(** [class JsonSerializer].  The sink of [dump_factory] is the text
    written so far. *)
Record JsonSerializer : Type := mkJsonSerializer {
  context : XmlContext;
  dict_factory : list (string * pyobj) -> pyobj;
  dump_factory : pyobj -> string -> option Z -> string * result unit;
  indent : option Z
}.

Definition var_is_None (var : option XmlVar) : bool :=
  match var with None => true | Some _ => false end.

(** [var.format]; [var] is never [None] where the source reads it. *)
Definition var_format (var : option XmlVar) : option string :=
  match var with Some v => format v | None => None end.

(** [occurs tgt obj]: the node [tgt] is part of the object tree
    [obj]. *)
Inductive occurs (tgt : pyobj) : pyobj -> Prop :=
| occurs_here : occurs tgt tgt
| occurs_dict_value items k v :
    In (k, v) items -> occurs tgt v -> occurs tgt (PDict items)
| occurs_element kd items o :
    In o items -> occurs tgt o -> occurs tgt (PColl kd items)
| occurs_enum_value cls nm v :
    occurs tgt v -> occurs tgt (PEnum cls nm v)
| occurs_attribute cls attrs k v :
    In (k, v) attrs -> occurs tgt v -> occurs tgt (PModel cls attrs)
| occurs_item cls items o :
    In o items -> occurs tgt o -> occurs tgt (PArrayModel cls items).

Section Convert.

Variable converter : ConverterFactory.
Variable self : JsonSerializer.

(** One evaluation of the body of [JsonSerializer.convert] (json.py,
    lines 61-83), with [self.convert] as [convert]. *)
Definition convert_body
    (convert : pyobj -> option XmlVar -> result pyobj)
    (obj : pyobj) (var : option XmlVar) : result pyobj :=
  if var_is_None var || is_model (context self) obj then
    if is_array obj then
      ys <- mapM (fun o => convert o None) (iter obj) ;;
      Ok (PColl KList ys)
    else
      vars <- build (context self) (type_of obj) ;;
      pairs <- mapM (fun var =>
                       value <- getattr obj (name var) ;;
                       r <- convert value (Some var) ;;
                       Ok (local_name var, r)) vars ;;
      Ok (dict_factory self pairs)
  else if is_array obj then
    construct (type_of obj) (fun v => convert v var) (iter obj)
  else if isinstance_primitive obj then
    Ok obj
  else if isinstance_Enum obj then
    convert (enum_value obj) var
  else
    serialize converter obj (var_format var).

(** [getattr(obj, name)] followed by [k], over an attribute store. *)
Definition with_attr {B} (cls : string) (nm : string)
    (k : pyobj -> result B) : list (string * pyobj) -> result B :=
  fix look (attrs : list (string * pyobj)) : result B :=
    match attrs with
    | [] => Raise (AttributeError (TRecord cls) nm)
    | (n, v) :: rest => if String.eqb n nm then k v else look rest
    end.

(** [JsonSerializer.convert], by recursion on the object tree.  Each
    case is the path of [convert_body] that the shape of [obj] selects
    ([build] raises for every type that is not a record type);
    [convert_unfold] states that [convert] satisfies the equation of
    [convert_body]. *)
Fixpoint convert (obj : pyobj) (var : option XmlVar) {struct obj}
  : result pyobj :=
  match obj, var with
  | PColl _ items, None =>
      ys <- mapM (fun o => convert o None) items ;;
      Ok (PColl KList ys)
  | PColl k items, Some _ =>
      construct_coll k (fun v => convert v var) items
  | PModel cls attrs, _ =>
      if var_is_None var || is_model (context self) obj then
        vars <- build (context self) (TRecord cls) ;;
        pairs <- mapM (fun var =>
                         with_attr cls (name var)
                           (fun value =>
                              r <- convert value (Some var) ;;
                              Ok (local_name var, r)) attrs) vars ;;
        Ok (dict_factory self pairs)
      else serialize converter obj (var_format var)
  | PArrayModel cls items, _ =>
      if var_is_None var || is_model (context self) obj then
        ys <- mapM (fun o => convert o None) items ;;
        Ok (PColl KList ys)
      else construct (TRecord cls) (fun v => convert v var) items
  | PEnum _ _ value, Some _ => convert value var
  | _, None => Raise (XmlContextError (type_of obj))
  | _, Some _ =>
      if isinstance_primitive obj then Ok obj
      else serialize converter obj (var_format var)
  end.



(** The positions [convert obj var] descends to: [contains obj var o v]
    when the node [o] occurs in [obj] at a place the dispatch of
    [convert_body] recurses into, with [v] the enclosing field it is
    converted under.  The content of an existing dictionary is not such
    a place: a dictionary is returned as it is. *)
Inductive contains : pyobj -> option XmlVar -> pyobj -> option XmlVar -> Prop :=
| contains_here obj var :
    contains obj var obj var
| contains_root_element obj var o tgt tv :
    var_is_None var || is_model (context self) obj = true ->
    is_array obj = true ->
    In o (iter obj) ->
    contains o None tgt tv ->
    contains obj var tgt tv
| contains_field obj var vars v value tgt tv :
    var_is_None var || is_model (context self) obj = true ->
    is_array obj = false ->
    build (context self) (type_of obj) = Ok vars ->
    In v vars ->
    getattr obj (name v) = Ok value ->
    contains value (Some v) tgt tv ->
    contains obj var tgt tv
| contains_element obj var o tgt tv :
    var_is_None var || is_model (context self) obj = false ->
    is_array obj = true ->
    In o (iter obj) ->
    contains o var tgt tv ->
    contains obj var tgt tv
| contains_enum_value obj var tgt tv :
    var_is_None var || is_model (context self) obj = false ->
    is_array obj = false ->
    isinstance_primitive obj = false ->
    isinstance_Enum obj = true ->
    contains (enum_value obj) var tgt tv ->
    contains obj var tgt tv.


End Convert.

End Json.

(* ================================================================== *)
(** * The serializer on an object store                               *)
(* ================================================================== *)

(** The same code over a store of objects with identities, to state
    what [convert] allocates, what it leaves alone and what it shares.
    Null, booleans, numbers, text and the empty tuple are immutable:
    they are written as values and their identity is not tracked (a
    member of an enumeration that mixes in [int] or [str] is such a
    value too).  Containers, records, members of plain enumerations
    and opaque objects live in the store and are named by their
    address. *)
Module Store.
Import Py Json.

Definition loc : Type := nat.

Inductive scalar : Type :=
| SNone
| SBool (b : bool)
| SInt (z : Z)
| SFloat (bits : Z)
| SStr (s : string)
| STuple0.

Inductive value : Type :=
| VScalar (s : scalar)
| VRef (l : loc).

(** [OColl KTuple items] is a tuple that is not empty; the empty tuple
    is [VScalar STuple0]. *)
Inductive object : Type :=
| ODict (items : list (string * value))
| OColl (k : coll) (items : list value)
| OEnum (cls name : string) (value : value)
| OModel (cls : string) (attrs : list (string * value))
| OArrayModel (cls : string) (items : list value)
| OOpaque (cls repr : string).

(** The store: the object at address [l] is the [l]-th allocated. *)
Definition store : Type := list object.

(** A computation reads and extends the store, and returns or
    raises. *)
Definition M (A : Type) : Type := store -> store * result A.

Definition ret {A} (a : A) : M A := fun h => (h, Ok a).
Definition raise {A} (e : exn) : M A := fun h => (h, Raise e).
Definition lift {A} (r : result A) : M A := fun h => (h, r).
Definition get : M store := fun h => (h, Ok h).

Definition bindM {A B} (c : M A) (k : A -> M B) : M B :=
  fun h =>
    match c h with
    | (h', Ok a) => k a h'
    | (h', Raise e) => (h', Raise e)
    end.

Declare Scope store_scope.
Delimit Scope store_scope with store.
Notation "x <~ c ;; k" := (bindM c (fun x => k))
  (at level 61, c at next level, right associativity) : store_scope.
Open Scope store_scope.

(** Creating an object: it gets the next address. *)
Definition alloc (o : object) : M value :=
  fun h => (h ++ [o], Ok (VRef (List.length h))).

Definition mapM {A B} (f : A -> M B) : list A -> M (list B) :=
  fix go (xs : list A) : M (list B) :=
    match xs with
    | [] => ret []
    | x :: xs' => y <~ f x ;; ys <~ go xs' ;; ret (y :: ys)
    end.

Definition deref (h : store) (v : value) : option object :=
  match v with
  | VRef l => nth_error h l
  | VScalar _ => None
  end.

Definition type_of (h : store) (v : value) : pytype :=
  match v with
  | VScalar SNone => TNone
  | VScalar (SBool _) => TBool
  | VScalar (SInt _) => TInt
  | VScalar (SFloat _) => TFloat
  | VScalar (SStr _) => TStr
  | VScalar STuple0 => TTuple
  | VRef l =>
      match nth_error h l with
      | Some (ODict _) => TDict
      | Some (OColl KList _) => TList
      | Some (OColl KTuple _) => TTuple
      | Some (OEnum cls _ _) => TEnum cls
      | Some (OModel cls _) => TRecord cls
      | Some (OArrayModel cls _) => TRecord cls
      | Some (OOpaque cls _) => TOpaque cls
      | None => TOpaque "object"
      end
  end.

Definition is_None (v : value) : bool :=
  match v with VScalar SNone => true | _ => false end.

(** [isinstance(obj, (dict, int, float, str, bool))] *)
Definition isinstance_primitive (h : store) (v : value) : bool :=
  match v with
  | VScalar (SBool _) | VScalar (SInt _) | VScalar (SFloat _)
  | VScalar (SStr _) => true
  | VScalar _ => false
  | VRef _ => match deref h v with Some (ODict _) => true | _ => false end
  end.

Definition isinstance_Enum (h : store) (v : value) : bool :=
  match deref h v with Some (OEnum _ _ _) => true | _ => false end.

Definition enum_value (h : store) (v : value) : value :=
  match deref h v with Some (OEnum _ _ x) => x | _ => VScalar SNone end.

Definition is_array (h : store) (v : value) : bool :=
  match v with
  | VScalar STuple0 => true
  | _ =>
      match deref h v with
      | Some (OColl _ _) | Some (OArrayModel _ _) => true
      | _ => false
      end
  end.

Definition iter (h : store) (v : value) : list value :=
  match deref h v with
  | Some (OColl _ items) | Some (OArrayModel _ items) => items
  | _ => []
  end.

Definition is_model (context : XmlContext) (h : store) (v : value) : bool :=
  match deref h v with
  | Some (OModel cls _) | Some (OArrayModel cls _) =>
      match descriptors context cls with Some _ => true | None => false end
  | _ => false
  end.

Fixpoint lookup (name : string) (attrs : list (string * value))
  : option value :=
  match attrs with
  | [] => None
  | (n, v) :: rest => if String.eqb n name then Some v else lookup name rest
  end.

Definition getattr (obj : value) (name : string) : M value :=
  fun h =>
    match deref h obj with
    | Some (OModel _ attrs) =>
        match lookup name attrs with
        | Some v => (h, Ok v)
        | None => (h, Raise (AttributeError (type_of h obj) name))
        end
    | _ => (h, Raise (AttributeError (type_of h obj) name))
    end.

(** The registry returns a scalar for the value it is given. *)
Definition ConverterFactory : Type :=
  pytype -> option (store -> value -> option string -> scalar).

Definition serialize (converter : ConverterFactory) (obj : value)
    (fmt : option string) : M value :=
  fun h =>
    match obj with
    | VScalar SNone => (h, Ok (VScalar SNone))
    | _ =>
        match converter (type_of h obj) with
        | Some encode => (h, Ok (VScalar (encode h obj fmt)))
        | None => (h, Raise (ConverterError (type_of h obj)))
        end
    end.

(** The items of the dictionary the builder creates: [dict] and
    [filter_none]. *)
Definition dict (pairs : list (string * value)) : list (string * value) :=
  dict_items pairs.

Definition filter_none (x : list (string * value))
  : list (string * value) :=
  fold_left
    (fun d kv => if negb (is_None (snd kv))
                 then dict_setitem (fst kv) (snd kv) d else d)
    x [].

(** [tuple(ys)]: a new tuple, except that a tuple with no element is
    the empty tuple, of which there is one. *)
Definition new_tuple (ys : list value) : M value :=
  match ys with
  | [] => ret (VScalar STuple0)
  | _ :: _ => alloc (OColl KTuple ys)
  end.

(** [t(f(v) for v in xs)]: a new list or a tuple. *)
Definition construct (t : pytype) (f : value -> M value)
    (xs : list value) : M value :=
  match container_of t with
  | Some KList => ys <~ mapM f xs ;; alloc (OColl KList ys)
  | Some KTuple => ys <~ mapM f xs ;; new_tuple ys
  | None => raise (TypeError "takes 1 positional argument but 2 were given")
  end.

Section Convert.

Variable converter : ConverterFactory.
Variable context : XmlContext.
Variable dict_factory : list (string * value) -> list (string * value).

(** [JsonSerializer.convert] (json.py, lines 61-83) with the store
    passed along.  [fuel] bounds the depth of the recursion, which the
    runtime bounds with RecursionError.  The list comprehension and the
    builder each create one new object, [type(obj)(...)] creates one
    unless it gives the empty tuple; nothing else touches the store. *)
Fixpoint convert (fuel : nat) (obj : value) (var : option XmlVar)
    {struct fuel} : M value :=
  match fuel with
  | O => raise RecursionError
  | S fuel' =>
      h <~ get ;;
      if var_is_None var || is_model context h obj then
        if is_array h obj then
          ys <~ mapM (fun o => convert fuel' o None) (iter h obj) ;;
          alloc (OColl KList ys)
        else
          vars <~ lift (build context (type_of h obj)) ;;
          pairs <~ mapM (fun var =>
                           value <~ getattr obj (name var) ;;
                           r <~ convert fuel' value (Some var) ;;
                           ret (local_name var, r)) vars ;;
          alloc (ODict (dict_factory pairs))
      else if is_array h obj then
        construct (type_of h obj)
          (fun v => convert fuel' v var) (iter h obj)
      else if isinstance_primitive h obj then
        ret obj
      else if isinstance_Enum h obj then
        convert fuel' (enum_value h obj) var
      else
        serialize converter obj (var_format var)
  end.

End Convert.

(** The values an object holds. *)
Definition children (o : object) : list value :=
  match o with
  | ODict items => map snd items
  | OColl _ items => items
  | OEnum _ _ v => [v]
  | OModel _ attrs => map snd attrs
  | OArrayModel _ items => items
  | OOpaque _ _ => []
  end.

(** [reaches h v l]: the object at address [l] is a node of the graph
    of [v] in the store [h]. *)
Inductive reaches (h : store) : value -> loc -> Prop :=
| reaches_here l : reaches h (VRef l) l
| reaches_child l o c l' :
    nth_error h l = Some o ->
    In c (children o) ->
    reaches h c l' ->
    reaches h (VRef l) l'.

(** A value that names an object of the store, or a scalar. *)
Definition in_store (h : store) (v : value) : bool :=
  match v with
  | VScalar _ => true
  | VRef l => Nat.ltb l (List.length h)
  end.

(** A store without dangling references. *)
Definition closed (h : store) : bool :=
  forallb (fun o => forallb (in_store h) (children o)) h.

(** What a result of [convert root], or a new object, may be or point
    to: a scalar, an object allocated after [h], or a dictionary of [h]
    that is a node of [root]. *)
Definition fresh_or_shared (h : store) (root : value) (v : value) : Prop :=
  match v with
  | VScalar _ => True
  | VRef l =>
      List.length h <= l
      \/ exists items, nth_error h l = Some (ODict items) /\ reaches h root l
  end.

(** [h] is [h0] followed by new objects that hold values in [S]
    only. *)
Definition grown_from (S : value -> Prop) (h0 h : store) : Prop :=
  exists ext,
    h = h0 ++ ext /\
    Forall (fun o => Forall S (children o)) ext.

(** [c] only allocates, keeps [grown_from S h0], and returns values
    satisfying [P]. *)
Definition preserves {A} (S : value -> Prop) (h0 : store)
    (P : A -> Prop) (c : M A) : Prop :=
  forall h h' r,
    grown_from S h0 h -> c h = (h', r) ->
    grown_from S h0 h' /\ forall a, r = Ok a -> P a.

(** [c], run in a closed store that holds the values [live], leaves a
    closed store that extends it and holds the values [vals a] of what
    it returns. *)
Definition keeps_closed {A} (vals : A -> list value) (live : list value)
    (c : M A) : Prop :=
  forall h h' r,
    closed h = true ->
    Forall (fun v => in_store h v = true) live ->
    c h = (h', r) ->
    closed h' = true
    /\ (exists ext, h' = h ++ ext)
    /\ forall a, r = Ok a -> Forall (fun v => in_store h' v = true) (vals a).

(** A builder that puts no value of its own into the map it creates. *)
Definition assembles
    (dict_factory : list (string * value) -> list (string * value)) : Prop :=
  forall pairs v,
    In v (map snd (dict_factory pairs)) -> In v (map snd pairs).

End Store.

(* ================================================================== *)
(** * The command line: [resolve_source]                              *)
(* ================================================================== *)

Module Cli.

(** [s.find(sub)]: the lowest index of [sub] in [s], or [-1]. *)
Definition str_find (s sub : string) : Z :=
  match String.index 0 sub s with
  | Some i => Z.of_nat i
  | None => (-1)%Z
  end.

(** [s.startswith(p)] *)
Definition startswith (s p : string) : bool := String.prefix p s.

(** [s.endswith(p)] *)
Definition endswith (s p : string) : bool :=
  (String.length p <=? String.length s)%nat
  && String.eqb
       (String.substring (String.length s - String.length p)
          (String.length p) s) p.

(** The part of [pathlib.Path] that [resolve_source] uses.  A directory
    lists the names of its entries in the order the operating system
    scans them. *)
Record FileSystem : Type := mkFileSystem {
  path : Type;
  resolve : string -> path;
  is_dir : path -> bool;
  scandir : path -> list string;
  joinpath : path -> string -> path;
  as_uri : path -> string
}.

(** Matching an entry name against the patterns [resolve_source] uses:
    [*] followed by literal text matches the names that end with that
    text; a pattern without [*] matches itself. *)
Definition fnmatch (name pattern : string) : bool :=
  match pattern with
  | String "*"%char suffix => endswith name suffix
  | _ => String.eqb name pattern
  end.

(** [path.glob(pattern)] for a pattern of one component: the matching
    entries of the directory. *)
Definition glob (fs : FileSystem) (p : path fs) (pattern : string)
  : list (path fs) :=
  map (joinpath fs p) (filter (fun name => fnmatch name pattern) (scandir fs p)).

(** [resolve_source] (cli.py, lines 194-205); the generator is
    modelled by the list of what it yields. *)
Definition resolve_source (fs : FileSystem) (source : string)
  : list string :=
  if (str_find source "://" >? -1)%Z && negb (startswith source "file://")
  then [source]
  else
    let path := resolve fs source in
    if is_dir fs path then
      map (as_uri fs) (glob fs path "*.wsdl")
      ++ map (as_uri fs) (glob fs path "*.xsd")
      ++ map (as_uri fs) (glob fs path "*.xml")
      ++ map (as_uri fs) (glob fs path "*.json")
    else [as_uri fs path].

(** [sub] occurs in [s]. *)
Definition occurs_in (sub s : string) : Prop :=
  exists pre post, s = String.append pre (String.append sub post).

(** [s] begins with [p]. *)
Definition begins_with (p s : string) : Prop :=
  exists rest, s = String.append p rest.

(** The URIs of the entries of directory [p] whose names end with
    [.ext], in scan order. *)
Definition uris_with_extension (fs : FileSystem) (p : path fs)
    (ext : string) : list string :=
  map (fun name => as_uri fs (joinpath fs p name))
      (filter (fun name => endswith name (String.append "." ext))
              (scandir fs p)).

End Cli.

(* ================================================================== *)
(** * Concrete inputs                                                 *)
(* ================================================================== *)

Module Samples.
Import Py Json.

(** An output stage that writes nothing. *)
Definition silent_dump (tree : pyobj) (out : string) (indent : option Z)
  : string * result unit := (out, Ok tt).

(** An empty converter registry. *)
Definition no_converters : ConverterFactory := fun _ => None.

(** A registry with a converter for [Decimal] only. *)
Definition decimal_converters : ConverterFactory :=
  fun t =>
    match t with
    | TOpaque "Decimal" =>
        Some (fun obj _ =>
                match obj with POpaque _ r => PStr r | _ => PNone end)
    | _ => None
    end.

Definition var_x := mkXmlVar "x" "x" false None.
Definition var_y := mkXmlVar "y" "y" false None.

(** Two fields of one record with the same external name, such as an
    element and an attribute both called [v]. *)
Definition var_v_element := mkXmlVar "v_element" "v" false None.
Definition var_v_attribute := mkXmlVar "v_attribute" "v" false None.

Definition var_attrs := mkXmlVar "attrs" "attrs" false None.
Definition var_items := mkXmlVar "items" "items" true None.

(** A provider for [Point(x, y)], [Twin(v_element, v_attribute)],
    [Bag(attrs)] and [Box(items)]. *)
Definition sample_context : XmlContext :=
  mkXmlContext
    (fun cls =>
       if String.eqb cls "Point" then Some [var_x; var_y]
       else if String.eqb cls "Twin"
            then Some [var_v_element; var_v_attribute]
       else if String.eqb cls "Bag" then Some [var_attrs]
       else if String.eqb cls "Box" then Some [var_items]
       else None).

(** [JsonSerializer(context=...)] with the default [dict_factory]. *)
Definition default_serializer : JsonSerializer :=
  mkJsonSerializer sample_context dict silent_dump None.

(** [JsonSerializer(context=..., dict_factory=DictFactory.FILTER_NONE)] *)
Definition omit_null_serializer : JsonSerializer :=
  mkJsonSerializer sample_context DictFactory.FILTER_NONE silent_dump None.

Definition point (x y : pyobj) : pyobj :=
  PModel "Point" [("x", x); ("y", y)].

Definition twin (e a : pyobj) : pyobj :=
  PModel "Twin" [("v_element", e); ("v_attribute", a)].


(** The member [Code.A = 'A'] of a plain enumeration. *)
Definition code_A : pyobj := PEnum "Code" "A" (PStr "A").

(** The member [Shape.EMPTY = []] of a plain enumeration. *)
Definition shape_EMPTY : pyobj := PEnum "Shape" "EMPTY" (PColl KList []).

End Samples.

Module StoreSamples.
Import Py Json Store.

Definition no_converters : Store.ConverterFactory := fun _ => None.

(** A store holding the dictionary [{'k': 'v'}] at address 0 and, at
    address 1, the record [Bag(attrs=<that dictionary>)]. *)
Definition bag_store : store :=
  [ ODict [("k", VScalar (SStr "v"))];
    OModel "Bag" [("attrs", VRef 0)] ].

Definition bag : value := VRef 1.

End StoreSamples.

Module CliSamples.
Import Cli.

(** A file system with one directory, [/schemas], holding five entries;
    paths are their text. *)
Definition sample_fs : FileSystem :=
  mkFileSystem
    (fun source => source)
    (fun p => String.eqb p "/schemas")
    (fun p => if String.eqb p "/schemas"
              then ["b.xsd"; "notes.txt"; "a.wsdl"; "c.json"; "a.xsd"]
              else [])
    (fun p name => String.append p (String.append "/" name))
    (fun p => String.append "file://" p).

End CliSamples.

(* ================================================================== *)
(** * Notions used to describe the serializer's results               *)
(* ================================================================== *)

Module JsonSpec.
Import Py Json.

(** The keys of a list of pairs in order of first occurrence. *)
Fixpoint first_occurrences (ks : list string) : list string :=
  match ks with
  | [] => []
  | k :: rest =>
      k :: filter (fun k' => negb (String.eqb k' k)) (first_occurrences rest)
  end.

(** The value of the last pair with key [k]. *)
Definition last_value (k : string) (pairs : list (string * pyobj))
  : option pyobj :=
  lookup k (rev pairs).

Definition not_None (kv : string * pyobj) : bool :=
  negb (is_None (snd kv)).

End JsonSpec.

(* ================================================================== *)
(** * The command line: [generate]                                    *)
(* ================================================================== *)

Module Generate.
Import Cli.

(** The keyword arguments click passes to [generate] (cli.py, lines
    76-155). *)
Record Kwargs : Type := mkKwargs {
  kw_source : string;
  kw_config : string;
  kw_package : string;
  kw_output : string;
  kw_docstring_style : string;
  kw_structure_style : string;
  kw_compound_fields : bool;
  kw_relative_imports : bool;
  kw_print : bool
}.

Section Config.

(** The attributes of the configuration classes of
    [xsdata/models/config.py] that [generate] does not name. *)
Variable FormatRest : Type.
Variable OutputRest : Type.
Variable ConfigRest : Type.

(** [OutputFormat]: [generate] reads and writes [value]. *)
Record OutputFormat : Type := mkOutputFormat {
  value : string;
  format_rest : FormatRest
}.

(** [GeneratorOutput], the [output] section of the configuration.  A
    member of [DocstringStyle] or [StructureStyle] is given by its
    value, which is how [generate] builds it: [DocstringStyle(text)]. *)
Record GeneratorOutput : Type := mkGeneratorOutput {
  package : string;
  format : OutputFormat;
  structure : string;
  docstring_style : string;
  relative_imports : bool;
  compound_fields : bool;
  output_rest : OutputRest
}.

Record GeneratorConfig : Type := mkGeneratorConfig {
  output : GeneratorOutput;
  config_rest : ConfigRest
}.

(** Assignments to the attributes of [config.output]. *)
Definition set_output (c : GeneratorConfig)
    (f : GeneratorOutput -> GeneratorOutput) : GeneratorConfig :=
  mkGeneratorConfig (f (output c)) (config_rest c).

Definition set_package (p : string) (o : GeneratorOutput) :=
  mkGeneratorOutput p (format o) (structure o) (docstring_style o)
    (relative_imports o) (compound_fields o) (output_rest o).

Definition set_format (f : OutputFormat) (o : GeneratorOutput) :=
  mkGeneratorOutput (package o) f (structure o) (docstring_style o)
    (relative_imports o) (compound_fields o) (output_rest o).

Definition set_format_value (v : string) (o : GeneratorOutput) :=
  set_format (mkOutputFormat v (format_rest (format o))) o.

Definition set_structure (s : string) (o : GeneratorOutput) :=
  mkGeneratorOutput (package o) (format o) s (docstring_style o)
    (relative_imports o) (compound_fields o) (output_rest o).

Definition set_docstring_style (s : string) (o : GeneratorOutput) :=
  mkGeneratorOutput (package o) (format o) (structure o) s
    (relative_imports o) (compound_fields o) (output_rest o).

Definition set_relative_imports (b : bool) (o : GeneratorOutput) :=
  mkGeneratorOutput (package o) (format o) (structure o) (docstring_style o)
    b (compound_fields o) (output_rest o).

Definition set_compound_fields (b : bool) (o : GeneratorOutput) :=
  mkGeneratorOutput (package o) (format o) (structure o) (docstring_style o)
    (relative_imports o) b (output_rest o).

(** What [generate] finds around it: the file system, whether a path
    exists, [GeneratorConfig.read], [GeneratorConfig()],
    the attributes [OutputFormat(value=...)] leaves at their defaults,
    and [StructureStyle.FILENAMES.value]. *)
Variable fs : FileSystem.
Variable path_exists : string -> bool.
Variable read : string -> GeneratorConfig.
Variable default_config : GeneratorConfig.
Variable default_format_rest : FormatRest.
Variable FILENAMES : string.

(** What [generate] does: whether it silences the logger, and the
    transformer it builds and runs. *)
Record Run : Type := mkRun {
  logger_set_to_error : bool;
  transformer_config : GeneratorConfig;
  transformer_print : bool;
  processed : list string
}.

(** [generate] (cli.py, lines 156-191). *)
Definition generate (kwargs : Kwargs) : Run :=
  let quiet := kw_print kwargs in
  let config_file := kw_config kwargs in
  let config :=
    if path_exists config_file then
      let config := read config_file in
      if negb (String.eqb (kw_package kwargs) "generated")
      then set_output config (set_package (kw_package kwargs))
      else config
    else
      let config := default_config in
      let config :=
        set_output config
          (set_format (mkOutputFormat (kw_output kwargs) default_format_rest)) in
      let config := set_output config (set_package (kw_package kwargs)) in
      let config :=
        set_output config
          (set_relative_imports (kw_relative_imports kwargs)) in
      let config :=
        set_output config (set_compound_fields (kw_compound_fields kwargs)) in
      set_output config (set_docstring_style (kw_docstring_style kwargs))
  in
  let config :=
    if negb (String.eqb (kw_structure_style kwargs) FILENAMES)
    then set_output config (set_structure (kw_structure_style kwargs))
    else config in
  let config :=
    if negb (String.eqb (kw_output kwargs) "dataclasses")
    then set_output config (set_format_value (kw_output kwargs))
    else config in
  let config :=
    if kw_relative_imports kwargs
    then set_output config (set_relative_imports true)
    else config in
  let uris := resolve_source fs (kw_source kwargs) in
  mkRun quiet config (kw_print kwargs) uris.

End Config.

End Generate.

(* ================================================================== *)
(** * More concrete inputs                                            *)
(* ================================================================== *)

Module MoreSamples.
Import Py Json Store Cli Generate.

(** Two descriptors with the same format hint. *)
Definition var_start := mkXmlVar "start" "start" false (Some "%Y-%m-%d").
Definition var_end := mkXmlVar "end" "end" false (Some "%Y-%m-%d").

(** [Point(x=1)]: an instance without its [y] attribute. *)
Definition point_without_y : pyobj := PModel "Point" [("x", PInt 1)].

(** A dataclass [Tags] that subclasses [list] and declares no field,
    described by the provider next to [Point]. *)
Definition tags_context : XmlContext :=
  mkXmlContext
    (fun cls =>
       if String.eqb cls "Tags" then Some []
       else descriptors Samples.sample_context cls).

Definition tags_serializer : JsonSerializer :=
  mkJsonSerializer tags_context Py.dict Samples.silent_dump None.

(** [Tags(['a'])] and [Tags([Point(1, 2)])]. *)
Definition tags_of_text : pyobj := PArrayModel "Tags" [PStr "a"].
Definition tags_of_point : pyobj :=
  PArrayModel "Tags" [Samples.point (PInt 1) (PInt 2)].


(** A store whose only object is a list that holds itself. *)
Definition loop_store : store := [OColl KList [VRef 0]].

(** A store holding the list [[1, 2]]. *)
Definition list_store : store :=
  [OColl KList [VScalar (SInt 1); VScalar (SInt 2)]].

(** A configuration file [.xsdata.xml] that sets the package [api],
    compound fields and Google docstrings; no other file exists. *)
Definition file_config : GeneratorConfig unit unit unit :=
  mkGeneratorConfig
    (mkGeneratorOutput "api" (mkOutputFormat "dataclasses" tt)
       "namespaces" "Google" false true tt) tt.

Definition fresh_config : GeneratorConfig unit unit unit :=
  mkGeneratorConfig
    (mkGeneratorOutput "generated" (mkOutputFormat "dataclasses" tt)
       "filenames" "reStructuredText" false false tt) tt.

Definition only_xsdata_xml (p : string) : bool := String.eqb p ".xsdata.xml".

(** [xsdata generate /schemas --docstring-style NumPy] *)
Definition plain_kwargs : Kwargs :=
  mkKwargs "/schemas" ".xsdata.xml" "generated" "dataclasses" "NumPy"
    "filenames" false false false.

(** [xsdata generate /schemas -c missing.xml -p models -ss clusters -cf] *)
Definition explicit_kwargs : Kwargs :=
  mkKwargs "/schemas" "missing.xml" "models" "dataclasses"
    "reStructuredText" "clusters" true false false.

Definition sample_generate (kwargs : Kwargs) : Run unit unit unit :=
  generate CliSamples.sample_fs only_xsdata_xml (fun _ => file_config)
    fresh_config tt "filenames" kwargs.

End MoreSamples.

(* ================================================================== *)
(** * Facts about the serializer on values                            *)
(* ================================================================== *)

Module JsonFacts.
Import Py Json.

Lemma bind_Ok {A B} (c : result A) (k : A -> result B) (b : B) :
  bind c k = Ok b -> exists a, c = Ok a /\ k a = Ok b.
Proof.
  destruct c as [a|e]; simpl; intros H; [eauto | discriminate].
Qed.

Lemma bind_Raise {A B} (c : result A) (k : A -> result B) (e : exn) :
  c = Raise e -> bind c k = Raise e.
Proof. intros ->; reflexivity. Qed.

Lemma mapM_ext {A B} (f g : A -> result B) (xs : list A) :
  (forall x, In x xs -> f x = g x) -> mapM f xs = mapM g xs.
Proof.
  induction xs as [|x xs IH]; intros H; simpl; [reflexivity|].
  rewrite (H x (or_introl eq_refl)), IH; [reflexivity|].
  intros y Hy; apply H; right; exact Hy.
Qed.

Lemma with_attr_getattr {B} cls nm (k : pyobj -> result B) attrs :
  with_attr cls nm k attrs = bind (getattr (PModel cls attrs) nm) k.
Proof.
  unfold getattr; simpl.
  induction attrs as [|[n v] rest IH]; simpl; [reflexivity|].
  destruct (String.eqb n nm); [reflexivity | exact IH].
Qed.


Lemma mapM_Forall2 {A B} (f : A -> result B) xs ys :
  Forall2 (fun x y => f x = Ok y) xs ys -> mapM f xs = Ok ys.
Proof.
  induction 1 as [|x y xs ys Hxy _ IH]; simpl; [reflexivity|].
  rewrite Hxy; simpl. rewrite IH; reflexivity.
Qed.

Lemma mapM_Ok_Forall2 {A B} (f : A -> result B) xs ys :
  mapM f xs = Ok ys -> Forall2 (fun x y => f x = Ok y) xs ys.
Proof.
  revert ys; induction xs as [|x xs IH]; simpl; intros ys H.
  - injection H as <-; constructor.
  - apply bind_Ok in H as (y & Hy & H).
    apply bind_Ok in H as (ys' & Hys & H).
    injection H as <-. constructor; auto.
Qed.

Lemma mapM_length {A B} (f : A -> result B) xs ys :
  mapM f xs = Ok ys -> List.length ys = List.length xs.
Proof.
  intros H; apply mapM_Ok_Forall2 in H.
  symmetry; eapply Forall2_length; eassumption.
Qed.

(** The first failing element of a comprehension decides its error. *)
Lemma mapM_Raise {A B} (f : A -> result B) pre x post ys e :
  Forall2 (fun x y => f x = Ok y) pre ys ->
  f x = Raise e ->
  mapM f (pre ++ x :: post) = Raise e.
Proof.
  induction 1 as [|a b pre ys Hab _ IH]; simpl; intros Hx.
  - rewrite Hx; reflexivity.
  - rewrite Hab; simpl. rewrite (IH Hx); reflexivity.
Qed.


(** ** Dictionaries *)

Lemma dict_setitem_fresh {V : Type} k (v : V) d :
  ~ In k (keys d) -> dict_setitem k v d = d ++ [(k, v)].
Proof.
  induction d as [|[k' v'] d IH]; simpl; intros Hk; [reflexivity|].
  destruct (String.eqb_spec k' k) as [->|Hne]; [tauto|].
  rewrite IH; [reflexivity | tauto].
Qed.

Lemma dict_fold_nodup {V : Type} (pairs acc : list (string * V)) :
  NoDup (keys (acc ++ pairs)) ->
  fold_left (fun d kv => dict_setitem (fst kv) (snd kv) d) pairs acc
  = acc ++ pairs.
Proof.
  revert acc; induction pairs as [|[k v] pairs IH]; intros acc Hnd; simpl.
  - rewrite app_nil_r; reflexivity.
  - assert (Hacc : ~ In k (keys acc)).
    { unfold keys in *. rewrite map_app in Hnd. simpl in Hnd.
      apply NoDup_remove_2 in Hnd. rewrite in_app_iff in Hnd. tauto. }
    rewrite dict_setitem_fresh by exact Hacc.
    rewrite IH; rewrite <- app_assoc; simpl; [reflexivity | exact Hnd].
Qed.

(** [dict] keeps a list of pairs with distinct keys as it is. *)
Lemma dict_items_nodup {V : Type} (pairs : list (string * V)) :
  NoDup (keys pairs) -> dict_items pairs = pairs.
Proof. intros H; unfold dict_items; rewrite dict_fold_nodup; auto. Qed.

Lemma filter_none_dict x :
  filter_none x
  = dict (filter (fun kv => negb (is_None (snd kv))) x).
Proof.
  unfold filter_none, dict, dict_items. f_equal.
  generalize (@nil (string * pyobj)) as acc.
  induction x as [|[k v] x IH]; intros acc; simpl; [reflexivity|].
  destruct (is_None v); simpl; apply IH.
Qed.

Lemma keys_combine (ks : list string) (vs : list pyobj) :
  List.length ks = List.length vs -> keys (combine ks vs) = ks.
Proof.
  revert vs; induction ks as [|k ks IH]; destruct vs as [|v vs];
    simpl; intros H; try discriminate; [reflexivity|].
  f_equal; apply IH; lia.
Qed.

Lemma keys_filter_NoDup (p : string * pyobj -> bool) d :
  NoDup (keys d) -> NoDup (keys (filter p d)).
Proof.
  unfold keys. induction d as [|[k v] d IH]; simpl; intros H;
    [constructor|].
  inversion H as [|? ? Hk Hd]; subst.
  destruct (p (k, v)); simpl; [constructor|]; auto.
  intros Hin; apply Hk. apply in_map_iff in Hin as ([k' v'] & <- & Hin).
  apply filter_In in Hin as [Hin _].
  apply in_map_iff; exists (k', v'); auto.
Qed.

Section Unfold.
Variable converter : ConverterFactory.
Variable self : JsonSerializer.

(** [convert] satisfies the defining equation of the source's body. *)
Lemma convert_unfold (obj : pyobj) (var : option XmlVar) :
  convert converter self obj var
  = convert_body converter self (convert converter self) obj var.
Proof.
  unfold convert_body.
  destruct obj as [ | b | z | bits | s | items | k items | cls nm value
                  | cls attrs | cls items | cls repr ];
    destruct var as [v|]; try reflexivity.
  - destruct k; reflexivity.
  - simpl. destruct (descriptors (context self) cls) as [vars|];
      [|reflexivity].
    simpl. erewrite mapM_ext; [reflexivity|].
    intros x _. apply with_attr_getattr.
  - simpl. destruct (descriptors (context self) cls) as [vars|];
      [|reflexivity].
    simpl. erewrite mapM_ext; [reflexivity|].
    intros x _. apply with_attr_getattr.
Qed.

(** The record branch: when the provider describes [cls] and every
    described field converts, the builder receives the pairs of external
    name and converted value in declared order. *)
Lemma convert_model cls attrs var vars rs :
  descriptors (context self) cls = Some vars ->
  Forall2 (fun v r => exists value,
             getattr (PModel cls attrs) (name v) = Ok value /\
             convert converter self value (Some v) = Ok r) vars rs ->
  convert converter self (PModel cls attrs) var
  = Ok (dict_factory self (combine (map local_name vars) rs)).
Proof.
  intros Hd Hf. rewrite convert_unfold; unfold convert_body.
  assert (Hm : is_model (context self) (PModel cls attrs) = true)
    by (simpl; rewrite Hd; reflexivity).
  rewrite Hm, orb_true_r. cbn [is_array type_of build].
  rewrite Hd. cbn [bind].
  erewrite mapM_Forall2 with (ys := combine (map local_name vars) rs);
    [reflexivity|].
  clear Hd Hm. induction Hf as [|v r vars rs (value & Hg & Hc) _ IH];
    cbn [combine map]; constructor; auto.
  rewrite Hg; cbn [bind]. rewrite Hc; reflexivity.
Qed.

End Unfold.
(** ** Order of the output map (C1) *)




(** ** Primitive values (C2) *)

(** C2, as amended.  Under an enclosing field, a boolean, integer,
    floating-point, text or dictionary value is returned unchanged, and
    so is null (which the converter registry encodes as null).  At the
    root, with no enclosing field, such a value is handed to the
    Metadata Provider as if it were a record, and MetadataError is
    raised. *)
Theorem convert_primitive
    (converter : ConverterFactory) (self : JsonSerializer)
    (v : pyobj) (f : XmlVar) :
  isinstance_primitive v = true \/ v = PNone ->
  convert converter self v (Some f) = Ok v
  /\ convert converter self v None = Raise (XmlContextError (type_of v)).
Proof.
  intros Hv. split; rewrite convert_unfold; unfold convert_body.
  - cbn [var_is_None orb].
    destruct Hv as [H | ->]; [|reflexivity].
    destruct v; try discriminate H; reflexivity.
  - cbn [var_is_None orb].
    destruct Hv as [H | ->]; [|reflexivity].
    destruct v; try discriminate H; reflexivity.
Qed.

Lemma convert_primitive_witness :
  convert Samples.no_converters Samples.default_serializer
    (PInt 5) (Some Samples.var_x) = Ok (PInt 5)
  /\ convert Samples.no_converters Samples.default_serializer
       (PInt 5) None = Raise (XmlContextError TInt).
Proof.
  apply (@convert_primitive Samples.no_converters
           Samples.default_serializer (PInt 5) Samples.var_x).
  left; reflexivity.
Defined.

(** C2 fails as stated: at the root the integer [5] is not returned. *)
Lemma convert_primitive_counterexample :
  convert Samples.no_converters Samples.default_serializer (PInt 5) None
  = Raise (XmlContextError TInt)
  /\ ~ (forall converter self v var,
          isinstance_primitive v = true \/ v = PNone ->
          convert converter self v var = Ok v).
Proof.
  split; [reflexivity|].
  intros H.
  specialize (H Samples.no_converters Samples.default_serializer
                (PInt 5) None (or_introl eq_refl)).
  discriminate H.
Qed.

(** ** Enumerations (C5) *)

(** C5, as amended.  Under an enclosing field, converting a member of
    an enumeration is converting its underlying value under the same
    field.  At the root, with no enclosing field, the member is handed
    to the Metadata Provider and MetadataError is raised, whatever the
    underlying value converts to. *)
Theorem convert_enum
    (converter : ConverterFactory) (self : JsonSerializer)
    (cls nm : string) (value : pyobj) (f : XmlVar) :
  convert converter self (PEnum cls nm value) (Some f)
  = convert converter self value (Some f)
  /\ convert converter self (PEnum cls nm value) None
     = Raise (XmlContextError (TEnum cls)).
Proof.
  split.
  - rewrite (convert_unfold converter self (PEnum cls nm value) (Some f)).
    reflexivity.
  - rewrite convert_unfold. reflexivity.
Qed.

(** C5 fails as stated: at the root the member [Shape.EMPTY = []]
    raises, while its underlying value [[]] converts to [[]]. *)
Lemma convert_enum_counterexample :
  convert Samples.no_converters Samples.default_serializer
    Samples.shape_EMPTY None = Raise (XmlContextError (TEnum "Shape"))
  /\ convert Samples.no_converters Samples.default_serializer
       (enum_value Samples.shape_EMPTY) None = Ok (PColl KList [])
  /\ ~ (forall converter self e var,
          isinstance_Enum e = true ->
          convert converter self e var
          = convert converter self (enum_value e) var).
Proof.
  split; [reflexivity|]. split; [reflexivity|].
  intros H.
  specialize (H Samples.no_converters Samples.default_serializer
                Samples.shape_EMPTY None eq_refl).
  discriminate H.
Qed.

(** ** Collections (C4, C6, C9) *)

Lemma construct_ordered k (f : pyobj -> result pyobj) items rs :
  Forall2 (fun o r => f o = Ok r) items rs ->
  construct_coll k f items = Ok (PColl k rs).
Proof.
  intros Hf. apply mapM_Forall2 in Hf.
  unfold construct_coll. rewrite Hf. reflexivity.
Qed.

(** C4, as amended.  A list or a tuple under an enclosing field (it is
    never a model node) whose elements convert under that field
    converts to a container of the same type holding, in the same order
    and number, the conversions of its elements, each under that same
    enclosing field. *)
Theorem convert_collection
    (converter : ConverterFactory) (self : JsonSerializer)
    (k : coll) (items : list pyobj) (f : XmlVar) (rs : list pyobj) :
  Forall2 (fun o r => convert converter self o (Some f) = Ok r) items rs ->
  is_model (context self) (PColl k items) = false
  /\ convert converter self (PColl k items) (Some f) = Ok (PColl k rs)
  /\ type_of (PColl k rs) = type_of (PColl k items)
  /\ List.length rs = List.length items.
Proof.
  intros Hf. split; [reflexivity|]. split; [|split].
  - rewrite convert_unfold; unfold convert_body.
    cbn [var_is_None is_model orb is_array iter].
    unfold construct. destruct k; cbn [type_of container_of];
      apply construct_ordered; assumption.
  - destruct k; reflexivity.
  - symmetry; eapply Forall2_length; eassumption.
Qed.

Lemma convert_collection_witness :
  is_model (context Samples.default_serializer)
    (PColl KTuple [PInt 1; Samples.code_A; PStr "c"]) = false
  /\ convert Samples.no_converters Samples.default_serializer
       (PColl KTuple [PInt 1; Samples.code_A; PStr "c"])
       (Some Samples.var_items)
     = Ok (PColl KTuple [PInt 1; PStr "A"; PStr "c"])
  /\ type_of (PColl KTuple [PInt 1; PStr "A"; PStr "c"])
     = type_of (PColl KTuple [PInt 1; Samples.code_A; PStr "c"])
  /\ List.length [PInt 1; PStr "A"; PStr "c"]
     = List.length [PInt 1; Samples.code_A; PStr "c"].
Proof.
  apply (@convert_collection Samples.no_converters
           Samples.default_serializer KTuple
           [PInt 1; Samples.code_A; PStr "c"] Samples.var_items
           [PInt 1; PStr "A"; PStr "c"]).
  repeat constructor.
Defined.

(** C4 fails as stated: the list [[Point(x=1)]], whose element lacks
    the attribute [y] its type declares, is a collection under an
    enclosing field, and [convert] returns no collection for it: it
    raises the AttributeError of the element. *)
Lemma convert_collection_counterexample :
  convert Samples.no_converters Samples.default_serializer
    (PColl KList [MoreSamples.point_without_y]) (Some Samples.var_items)
  = Raise (AttributeError (TRecord "Point") "y")
  /\ ~ (forall converter self k items f,
          exists out,
            convert converter self (PColl k items) (Some f)
            = Ok (PColl k out)
            /\ List.length out = List.length items).
Proof.
  split; [reflexivity|].
  intros H.
  destruct (H Samples.no_converters Samples.default_serializer KList
              [MoreSamples.point_without_y] Samples.var_items)
    as (out & Hc & _).
  discriminate Hc.
Qed.

(** Step 1 of the dispatch on a collection. *)
Lemma convert_step1_collection
    (converter : ConverterFactory) (self : JsonSerializer)
    (obj : pyobj) (var : option XmlVar) (rs : list pyobj) :
  var_is_None var || is_model (context self) obj = true ->
  is_array obj = true ->
  Forall2 (fun o r => convert converter self o None = Ok r) (iter obj) rs ->
  convert converter self obj var = Ok (PColl KList rs).
Proof.
  intros H1 Harr Hf. rewrite convert_unfold; unfold convert_body.
  rewrite H1, Harr. rewrite (mapM_Forall2 _ Hf). reflexivity.
Qed.

Lemma convert_step1_collection_inv
    (converter : ConverterFactory) (self : JsonSerializer)
    (obj : pyobj) (var : option XmlVar) (out : pyobj) :
  var_is_None var || is_model (context self) obj = true ->
  is_array obj = true ->
  convert converter self obj var = Ok out ->
  exists rs,
    out = PColl KList rs /\
    Forall2 (fun o r => convert converter self o None = Ok r) (iter obj) rs.
Proof.
  intros H1 Harr. rewrite convert_unfold; unfold convert_body.
  rewrite H1, Harr. intros H.
  apply bind_Ok in H as (rs & Hrs & H). injection H as <-.
  exists rs. split; [reflexivity|]. apply mapM_Ok_Forall2; exact Hrs.
Qed.

(** C6, as amended.  When step 1 of the dispatch applies (the enclosing
    field is absent, or the value is a model node) and the value is a
    collection, [convert] converts its elements one by one with no
    enclosing field: an enclosing field, when there is one, is not
    passed on.  It returns exactly when every element converts so, and
    what it returns is the built-in list of those conversions in the
    order of the elements. *)
Theorem convert_root_collection
    (converter : ConverterFactory) (self : JsonSerializer)
    (obj : pyobj) (var : option XmlVar) (out : pyobj) :
  var = None \/ is_model (context self) obj = true ->
  is_array obj = true ->
  convert converter self obj var = Ok out
  <-> exists rs,
        out = PColl KList rs
        /\ Forall2 (fun o r => convert converter self o None = Ok r)
                   (iter obj) rs
        /\ List.length rs = List.length (iter obj).
Proof.
  intros Hstep Harr.
  assert (H1 : var_is_None var || is_model (context self) obj = true).
  { destruct Hstep as [-> | ->]; [reflexivity | apply orb_true_r]. }
  split.
  - intros H.
    destruct (convert_step1_collection_inv _ _ _ _ H1 Harr H)
      as (rs & -> & Hf).
    exists rs. split; [reflexivity|]. split; [exact Hf|].
    symmetry; eapply Forall2_length; eassumption.
  - intros (rs & -> & Hf & _). apply convert_step1_collection; auto.
Qed.

(** A record that is a list, under a field: its element, a record,
    is converted with no enclosing field. *)
Lemma convert_root_collection_witness :
  convert Samples.no_converters MoreSamples.tags_serializer
    MoreSamples.tags_of_point (Some Samples.var_items)
  = Ok (PColl KList [PDict [("x", PInt 1); ("y", PInt 2)]])
  <-> exists rs,
        PColl KList [PDict [("x", PInt 1); ("y", PInt 2)]] = PColl KList rs
        /\ Forall2 (fun o r => convert Samples.no_converters
                                 MoreSamples.tags_serializer o None = Ok r)
                   (iter MoreSamples.tags_of_point) rs
        /\ List.length rs = List.length (iter MoreSamples.tags_of_point).
Proof.
  apply (@convert_root_collection Samples.no_converters
           MoreSamples.tags_serializer MoreSamples.tags_of_point
           (Some Samples.var_items)
           (PColl KList [PDict [("x", PInt 1); ("y", PInt 2)]])).
  - right; reflexivity.
  - reflexivity.
Defined.

(** C6 fails as stated, twice.  The root list [[5]] is a collection to
    which step 1 applies, and [convert] returns nothing for it: its
    element is handed to the Metadata Provider, which raises.  And
    [Tags(['a'])] is a model node and a collection; under the field
    [items] its element ['a'] would convert to ['a'], but [convert]
    does not keep the enclosing field: it passes none on, hands ['a']
    to the Metadata Provider and raises. *)
Lemma convert_root_collection_counterexample :
  convert Samples.no_converters Samples.default_serializer
    (PColl KList [PInt 5]) None
  = Raise (XmlContextError TInt)
  /\ is_model (context MoreSamples.tags_serializer) MoreSamples.tags_of_text
     = true
  /\ is_array MoreSamples.tags_of_text = true
  /\ convert Samples.no_converters MoreSamples.tags_serializer
       (PStr "a") (Some Samples.var_items) = Ok (PStr "a")
  /\ convert Samples.no_converters MoreSamples.tags_serializer
       MoreSamples.tags_of_text (Some Samples.var_items)
     = Raise (XmlContextError TStr)
  /\ ~ (forall converter self obj var,
          var = None \/ is_model (context self) obj = true ->
          is_array obj = true ->
          exists rs,
            convert converter self obj var = Ok (PColl KList rs)
            /\ List.length rs = List.length (iter obj))
  /\ ~ (forall converter self obj var rs,
          var = None \/ is_model (context self) obj = true ->
          is_array obj = true ->
          Forall2 (fun o r => convert converter self o var = Ok r)
                  (iter obj) rs ->
          convert converter self obj var = Ok (PColl KList rs)).
Proof.
  repeat (split; [reflexivity|]). split.
  - intros H.
    destruct (H Samples.no_converters Samples.default_serializer
                (PColl KList [PInt 5]) None (or_introl eq_refl) eq_refl)
      as (rs & Hc & _).
    discriminate Hc.
  - intros H.
    specialize (H Samples.no_converters MoreSamples.tags_serializer
                  MoreSamples.tags_of_text (Some Samples.var_items)
                  [PStr "a"] (or_intror eq_refl) eq_refl).
    assert (Hf : Forall2
                   (fun o r => convert Samples.no_converters
                                 MoreSamples.tags_serializer o
                                 (Some Samples.var_items) = Ok r)
                   (iter MoreSamples.tags_of_text) [PStr "a"])
      by (repeat constructor).
    specialize (H Hf). discriminate H.
Qed.



(** ** The null policy (C3) *)

Lemma keys_functional (d : list (string * pyobj)) k x y :
  NoDup (keys d) -> In (k, x) d -> In (k, y) d -> x = y.
Proof.
  unfold keys. induction d as [|[k' v'] d IH]; simpl; intros Hnd Hx Hy;
    [contradiction|].
  inversion Hnd as [|? ? Hk Hd]; subst.
  destruct Hx as [Hx|Hx], Hy as [Hy|Hy].
  - congruence.
  - injection Hx as -> ->. exfalso; apply Hk.
    apply in_map_iff; exists (k, y); auto.
  - injection Hy as -> ->. exfalso; apply Hk.
    apply in_map_iff; exists (k, x); auto.
  - eauto.
Qed.

Lemma Forall2_field_entry {R : XmlVar -> pyobj -> Prop} vars rs v :
  Forall2 R vars rs -> In v vars ->
  exists r, R v r /\ In (local_name v, r) (combine (map local_name vars) rs).
Proof.
  induction 1 as [|v0 r0 vars rs H0 _ IH]; simpl; intros Hin;
    [contradiction|].
  destruct Hin as [->|Hin].
  - exists r0; auto.
  - destruct (IH Hin) as (r & Hr & Hi). exists r; auto.
Qed.

(** C3, as amended.  Take a record whose descriptors have pairwise
    distinct external names and a described field [v] whose value is
    null.  With the default builder the output map has the entry pairing
    the external name of [v] with null.  With the omit-null builder the
    output map has no key for [v]: it consists, in declared order, of
    the entries of the fields whose conversion (under that same builder)
    is not null. *)
Theorem null_policy
    (converter : ConverterFactory) (dflt omit : JsonSerializer)
    (cls : string) (attrs : list (string * pyobj)) (var : option XmlVar)
    (vars : list XmlVar) (rs rs' : list pyobj) (v : XmlVar) :
  dict_factory dflt = dict ->
  dict_factory omit = DictFactory.FILTER_NONE ->
  descriptors (context dflt) cls = Some vars ->
  descriptors (context omit) cls = Some vars ->
  NoDup (map local_name vars) ->
  Forall2 (fun v r => exists value,
             getattr (PModel cls attrs) (name v) = Ok value /\
             convert converter dflt value (Some v) = Ok r) vars rs ->
  Forall2 (fun v r => exists value,
             getattr (PModel cls attrs) (name v) = Ok value /\
             convert converter omit value (Some v) = Ok r) vars rs' ->
  In v vars ->
  getattr (PModel cls attrs) (name v) = Ok PNone ->
  (exists d, convert converter dflt (PModel cls attrs) var = Ok (PDict d)
             /\ In (local_name v, PNone) d)
  /\ (exists d', convert converter omit (PModel cls attrs) var
                 = Ok (PDict d')
                 /\ d' = filter (fun kv => negb (is_None (snd kv)))
                                (combine (map local_name vars) rs')
                 /\ ~ In (local_name v) (keys d')).
Proof.
  intros Hdflt Homit Hd Hd' Hnd Hf Hf' Hin Hnull.
  assert (Hk : forall xs : list pyobj,
             List.length vars = List.length xs ->
             NoDup (keys (combine (map local_name vars) xs))).
  { intros xs Hl. rewrite keys_combine; [exact Hnd|].
    rewrite length_map; exact Hl. }
  split.
  - exists (combine (map local_name vars) rs). split.
    + rewrite (@convert_model converter dflt cls attrs var vars rs Hd Hf).
      rewrite Hdflt. unfold dict. rewrite dict_items_nodup; [reflexivity|].
      apply Hk; eapply Forall2_length; eassumption.
    + destruct (@Forall2_field_entry _ vars rs v Hf Hin)
        as (r & (value & Hg & Hc) & Hi).
      rewrite Hnull in Hg. injection Hg as <-. simpl in Hc.
      injection Hc as <-. exact Hi.
  - eexists. split; [|split; [reflexivity|]].
    + rewrite (@convert_model converter omit cls attrs var vars rs' Hd' Hf').
      rewrite Homit. unfold DictFactory.FILTER_NONE.
      rewrite filter_none_dict. unfold dict.
      rewrite dict_items_nodup; [reflexivity|].
      apply keys_filter_NoDup, Hk. eapply Forall2_length; eassumption.
    + intros Hkey. unfold keys in Hkey.
      apply in_map_iff in Hkey as ([k x] & Hkx & Hfil). simpl in Hkx.
      subst k. apply filter_In in Hfil as [Hx Hnn]. simpl in Hnn.
      destruct (@Forall2_field_entry _ vars rs' v Hf' Hin)
        as (r & (value & Hg & Hc) & Hi).
      rewrite Hnull in Hg. injection Hg as <-. simpl in Hc.
      injection Hc as <-.
      assert (x = PNone).
      { eapply keys_functional; [|exact Hx|exact Hi].
        apply Hk; eapply Forall2_length; eassumption. }
      subst x. discriminate Hnn.
Qed.

(** The scenario of the specification: [Point{x:1, y:null}] gives
    [{x: 1, y: null}] by default and [{x: 1}] with the omit-null
    builder. *)
Lemma null_policy_witness :
  (exists d,
     convert Samples.no_converters Samples.default_serializer
       (Samples.point (PInt 1) PNone) None = Ok (PDict d)
     /\ In ("y", PNone) d)
  /\ (exists d',
        convert Samples.no_converters Samples.omit_null_serializer
          (Samples.point (PInt 1) PNone) None = Ok (PDict d')
        /\ d' = [("x", PInt 1)]
        /\ ~ In "y" (keys d')).
Proof.
  apply (@null_policy Samples.no_converters
           Samples.default_serializer Samples.omit_null_serializer
           "Point" [("x", PInt 1); ("y", PNone)] None
           [Samples.var_x; Samples.var_y]
           [PInt 1; PNone] [PInt 1; PNone] Samples.var_y).
  - reflexivity.
  - reflexivity.
  - reflexivity.
  - reflexivity.
  - repeat constructor; simpl; intuition discriminate.
  - repeat constructor.
    + exists (PInt 1); split; reflexivity.
    + exists PNone; split; reflexivity.
  - repeat constructor.
    + exists (PInt 1); split; reflexivity.
    + exists PNone; split; reflexivity.
  - right; left; reflexivity.
  - reflexivity.
Defined.

(** C3 fails as stated: in [Twin(v_element=None, v_attribute=1)] both
    descriptors have the external name [v]; the default output is
    [{v: 1}], with no entry pairing [v] with null. *)
Lemma null_policy_counterexample :
  convert Samples.no_converters Samples.default_serializer
    (Samples.twin PNone (PInt 1)) None = Ok (PDict [("v", PInt 1)])
  /\ ~ (forall converter dflt cls attrs var vars v,
          dict_factory dflt = dict ->
          descriptors (context dflt) cls = Some vars ->
          In v vars ->
          getattr (PModel cls attrs) (name v) = Ok PNone ->
          (forall w, In w vars ->
             exists value r,
               getattr (PModel cls attrs) (name w) = Ok value /\
               convert converter dflt value (Some w) = Ok r) ->
          exists d, convert converter dflt (PModel cls attrs) var
                    = Ok (PDict d)
                    /\ In (local_name v, PNone) d).
Proof.
  split; [reflexivity|].
  intros H.
  destruct (H Samples.no_converters Samples.default_serializer
              "Twin" [("v_element", PNone); ("v_attribute", PInt 1)]
              None [Samples.var_v_element; Samples.var_v_attribute]
              Samples.var_v_element eq_refl eq_refl
              (or_introl eq_refl) eq_refl) as (d & Hc & Hin).
  - intros w [<-|[<-|[]]].
    + exists PNone, PNone; split; reflexivity.
    + exists (PInt 1), (PInt 1); split; reflexivity.
  - vm_compute in Hc. injection Hc as <-.
    destruct Hin as [Hin|[]]. discriminate Hin.
Qed.

(** ** Errors (C7) *)


(** An element that raises makes the comprehension around it raise
    that same exception, when the elements before it convert. *)
Lemma convert_list_propagates
    (converter : ConverterFactory) (self : JsonSerializer)
    pre o post rs var e :
  Forall2 (fun o r => convert converter self o var = Ok r) pre rs ->
  convert converter self o var = Raise e ->
  convert converter self (PColl KList (pre ++ o :: post)) var = Raise e.
Proof.
  intros Hpre Ho. rewrite convert_unfold; unfold convert_body.
  cbn [is_model orb is_array iter type_of].
  destruct var as [f|]; cbn [var_is_None orb].
  - unfold construct; cbn [container_of]. unfold construct_coll.
    rewrite (mapM_Raise _ _ post Hpre Ho). reflexivity.
  - rewrite (mapM_Raise _ _ post Hpre Ho). reflexivity.
Qed.

Section Errors.
Variable converter : ConverterFactory.
Variable self : JsonSerializer.



Lemma lookup_In nm attrs value :
  lookup nm attrs = Some value -> exists k, In (k, value) attrs.
Proof.
  induction attrs as [|[n v] rest IH]; simpl; [discriminate|].
  destruct (String.eqb n nm).
  - intros E; injection E as ->. eauto.
  - intros E. destruct (IH E) as (k & Hk). eauto.
Qed.

Lemma array_items_occur tgt obj o :
  is_array obj = true -> In o (iter obj) -> occurs tgt o -> occurs tgt obj.
Proof.
  intros Harr Hin Ho. destruct obj; try discriminate Harr; simpl in Hin.
  - eapply occurs_element; eassumption.
  - eapply occurs_item; eassumption.
Qed.

(** The positions [convert] descends to are positions of the tree. *)
Lemma contains_occurs obj var tgt tv :
  contains self obj var tgt tv -> occurs tgt obj.
Proof.
  induction 1 as
    [ obj var
    | obj var o tgt tv _ Harr Hin _ IH
    | obj var vars v value tgt tv _ _ _ _ Hg _ IH
    | obj var o tgt tv _ Harr Hin _ IH
    | obj var tgt tv _ _ _ He _ IH ].
  - constructor.
  - eapply array_items_occur; eassumption.
  - destruct obj; try discriminate Hg. simpl in Hg.
    destruct (lookup (name v) attrs) as [x|] eqn:El; [|discriminate Hg].
    injection Hg as ->. destruct (lookup_In _ _ El) as (k & Hk).
    eapply occurs_attribute; eauto.
  - eapply array_items_occur; eassumption.
  - destruct obj; try discriminate He. apply occurs_enum_value; exact IH.
Qed.


End Errors.




End JsonFacts.

(* ================================================================== *)
(** * Facts about the serializer on an object store                   *)
(* ================================================================== *)

Module StoreFacts.
Import Py Json Store.

Lemma dict_setitem_values {V : Type} k (v x : V) d :
  In x (map snd (dict_setitem k v d)) -> x = v \/ In x (map snd d).
Proof.
  induction d as [|[k' v'] d IH]; simpl.
  - intros [<-|[]]; auto.
  - destruct (String.eqb k' k); simpl; intros [<-|H]; auto.
    destruct (IH H); auto.
Qed.

Lemma assembles_dict : assembles Store.dict.
Proof.
  unfold assembles, Store.dict, dict_items. intros pairs v.
  assert (G : forall acc,
             In v (map snd (fold_left
                              (fun d kv => dict_setitem (fst kv) (snd kv) d)
                              pairs acc)) ->
             In v (map snd acc) \/ In v (map snd pairs)).
  { induction pairs as [|[k x] pairs IH]; simpl; intros acc H; auto.
    destruct (IH _ H) as [H'|H']; auto.
    destruct (dict_setitem_values _ _ _ _ H') as [->|?]; auto. }
  intros H. destruct (G [] H) as [[]|?]; assumption.
Qed.

Lemma assembles_filter_none : assembles Store.filter_none.
Proof.
  unfold assembles, Store.filter_none. intros pairs v.
  assert (G : forall acc,
             In v (map snd (fold_left
                              (fun d kv =>
                                 if negb (Store.is_None (snd kv))
                                 then dict_setitem (fst kv) (snd kv) d
                                 else d)
                              pairs acc)) ->
             In v (map snd acc) \/ In v (map snd pairs)).
  { induction pairs as [|[k x] pairs IH]; simpl; intros acc H; auto.
    destruct (IH _ H) as [H'|H']; auto.
    destruct (negb (Store.is_None x)); auto.
    destruct (dict_setitem_values _ _ _ _ H') as [->|?]; auto. }
  intros H. destruct (G [] H) as [[]|?]; assumption.
Qed.

(** ** What a computation keeps *)

Section Frame.
Variable S : value -> Prop.
Variable h0 : store.
Hypothesis S_scalar : forall s, S (VScalar s).
Hypothesis S_fresh : forall l, List.length h0 <= l -> S (VRef l).

Lemma grown_from_refl : grown_from S h0 h0.
Proof. exists []. rewrite app_nil_r. split; [reflexivity | constructor]. Qed.

Lemma grown_from_length h :
  grown_from S h0 h -> List.length h0 <= List.length h.
Proof. intros (ext & -> & _). rewrite length_app. lia. Qed.

Lemma grown_from_old h l :
  grown_from S h0 h -> l < List.length h0 -> nth_error h l = nth_error h0 l.
Proof. intros (ext & -> & _) Hl. apply nth_error_app1; exact Hl. Qed.

Lemma preserves_ret {A} (P : A -> Prop) a : P a -> preserves S h0 P (ret a).
Proof.
  intros Ha h h' r Hg E. injection E as <- <-. split; [exact Hg|].
  intros a' E; injection E as <-; exact Ha.
Qed.

Lemma preserves_raise {A} (P : A -> Prop) e : preserves S h0 P (raise e).
Proof.
  intros h h' r Hg E. injection E as <- <-. split; [exact Hg|].
  intros a' E; discriminate E.
Qed.

Lemma preserves_lift {A} (P : A -> Prop) (c : result A) :
  (forall a, c = Ok a -> P a) -> preserves S h0 P (lift c).
Proof.
  intros Hc h h' r Hg E. injection E as <- <-. split; [exact Hg | exact Hc].
Qed.

Lemma preserves_get : preserves S h0 (grown_from S h0) get.
Proof.
  intros h h' r Hg E. injection E as <- <-. split; [exact Hg|].
  intros a E; injection E as <-; exact Hg.
Qed.

Lemma preserves_bind {A B} (P : A -> Prop) (Q : B -> Prop)
    (c : M A) (k : A -> M B) :
  preserves S h0 P c ->
  (forall a, P a -> preserves S h0 Q (k a)) ->
  preserves S h0 Q (bindM c k).
Proof.
  intros Hc Hk h h' r Hg E. unfold bindM in E.
  destruct (c h) as [h1 [a|e]] eqn:Ec.
  - destruct (Hc _ _ _ Hg Ec) as [Hg1 Ha].
    exact (Hk a (Ha a eq_refl) _ _ _ Hg1 E).
  - destruct (Hc _ _ _ Hg Ec) as [Hg1 _].
    injection E as <- <-. split; [exact Hg1 | discriminate].
Qed.

Lemma preserves_weaken {A} (P Q : A -> Prop) (c : M A) :
  (forall a, P a -> Q a) -> preserves S h0 P c -> preserves S h0 Q c.
Proof.
  intros HPQ Hc h h' r Hg E. destruct (Hc _ _ _ Hg E) as [Hg' Ha].
  split; [exact Hg'|]. intros a Er; apply HPQ, Ha, Er.
Qed.

Lemma preserves_alloc o :
  Forall S (children o) -> preserves S h0 S (alloc o).
Proof.
  intros Ho h h' r Hg E. unfold alloc in E. injection E as <- <-.
  split.
  - destruct Hg as (ext & -> & Hext). exists (ext ++ [o]).
    rewrite app_assoc. split; [reflexivity|].
    apply Forall_app; split; [exact Hext | constructor; [exact Ho|constructor]].
  - intros a E; injection E as <-. apply S_fresh.
    apply grown_from_length; exact Hg.
Qed.

Lemma preserves_new_tuple ys :
  Forall S ys -> preserves S h0 S (new_tuple ys).
Proof.
  intros Hys. destruct ys as [|y ys]; simpl.
  - apply preserves_ret, S_scalar.
  - apply preserves_alloc; exact Hys.
Qed.

Lemma preserves_mapM {A B} (P : B -> Prop) (f : A -> M B) xs :
  (forall x, In x xs -> preserves S h0 P (f x)) ->
  preserves S h0 (Forall P) (Store.mapM f xs).
Proof.
  induction xs as [|x xs IH]; intros Hf; simpl.
  - apply preserves_ret; constructor.
  - eapply preserves_bind; [apply Hf; left; reflexivity|]. intros y Hy.
    eapply preserves_bind;
      [apply IH; intros z Hz; apply Hf; right; exact Hz|].
    intros ys Hys. apply preserves_ret; constructor; assumption.
Qed.

Variable R : value -> Prop.
Hypothesis R_child :
  forall h obj o c,
    grown_from S h0 h -> R obj -> deref h obj = Some o ->
    In c (children o) -> R c.
Hypothesis R_primitive :
  forall h obj,
    grown_from S h0 h -> R obj -> Store.isinstance_primitive h obj = true ->
    S obj.

Lemma lookup_children nm attrs (v : value) :
  Store.lookup nm attrs = Some v -> In v (map snd attrs).
Proof.
  induction attrs as [|[n x] attrs IH]; simpl; [discriminate|].
  destruct (String.eqb n nm); [intros E; injection E as ->; auto|].
  intros E; right; apply IH; exact E.
Qed.

Lemma preserves_getattr obj nm :
  R obj -> preserves S h0 R (Store.getattr obj nm).
Proof.
  intros HR h h' r Hg E. unfold Store.getattr in E.
  destruct (deref h obj) as [o|] eqn:Ed;
    [|injection E as <- <-; split; [exact Hg | discriminate]].
  destruct o as [ | | | cls attrs | | ];
    try (injection E as <- <-; split; [exact Hg | discriminate]).
  destruct (Store.lookup nm attrs) as [v|] eqn:El;
    injection E as <- <-; (split; [exact Hg|]); [|discriminate].
  intros a Ea; injection Ea as <-.
  apply (@R_child _ _ _ _ Hg HR Ed). simpl. eapply lookup_children; exact El.
Qed.

Lemma R_iter h obj x :
  grown_from S h0 h -> R obj -> In x (Store.iter h obj) -> R x.
Proof.
  intros Hg HR. unfold Store.iter.
  destruct (deref h obj) as [o|] eqn:Ed; [|intros []].
  destruct o; try (intros []); intros Hin;
    apply (@R_child _ _ _ _ Hg HR Ed); exact Hin.
Qed.

Lemma R_enum_value h obj :
  grown_from S h0 h -> R obj -> Store.isinstance_Enum h obj = true ->
  R (Store.enum_value h obj).
Proof.
  intros Hg HR. unfold Store.isinstance_Enum, Store.enum_value.
  destruct (deref h obj) as [o|] eqn:Ed; [|discriminate].
  destruct o; try discriminate. intros _.
  apply (@R_child _ _ _ _ Hg HR Ed). left; reflexivity.
Qed.

Lemma preserves_serialize converter obj fmt :
  preserves S h0 S (Store.serialize converter obj fmt).
Proof.
  intros h h' r Hg E. unfold Store.serialize in E.
  assert (G : forall x : store * result value,
            (x = (h, Ok (VScalar SNone))
             \/ (exists s, x = (h, Ok (VScalar s)))
             \/ exists e, x = (h, Raise e)) ->
            x = (h', r) ->
            grown_from S h0 h' /\ forall a, r = Ok a -> S a).
  { intros x [->|[[s ->]|[e ->]]] Ex; injection Ex as <- <-;
      (split; [exact Hg|]); intros a Ea;
      try discriminate Ea; injection Ea as <-; apply S_scalar. }
  refine (G _ _ E).
  destruct obj as [[]|l]; auto;
    destruct (converter _); eauto.
Qed.

Lemma preserves_construct t (f : value -> M value) xs :
  (forall x, In x xs -> preserves S h0 S (f x)) ->
  preserves S h0 S (Store.construct t f xs).
Proof.
  intros Hf. unfold Store.construct.
  destruct (container_of t) as [[|]|].
  - eapply preserves_bind; [apply preserves_mapM; exact Hf|].
    intros ys Hys. apply preserves_alloc; exact Hys.
  - eapply preserves_bind; [apply preserves_mapM; exact Hf|].
    intros ys Hys. apply preserves_new_tuple; exact Hys.
  - apply preserves_raise.
Qed.

Variable converter : Store.ConverterFactory.
Variable context : XmlContext.
Variable dict_factory : list (string * value) -> list (string * value).
Hypothesis dict_factory_keeps :
  forall pairs,
    Forall (fun kv => S (snd kv)) pairs ->
    Forall S (map snd (dict_factory pairs)).

Lemma preserves_convert fuel :
  forall obj var,
    R obj ->
    preserves S h0 S
      (Store.convert converter context dict_factory fuel obj var).
Proof.
  induction fuel as [|fuel IH]; intros obj var HR.
  - apply preserves_raise.
  - cbn [Store.convert].
    eapply preserves_bind; [apply preserves_get|]. intros h Hg.
    destruct (var_is_None var || Store.is_model context h obj).
    + destruct (Store.is_array h obj).
      * eapply preserves_bind.
        { apply preserves_mapM. intros x Hx. apply IH.
          exact (@R_iter _ _ _ Hg HR Hx). }
        intros ys Hys. apply preserves_alloc; exact Hys.
      * eapply preserves_bind;
          [apply preserves_lift with (P := fun _ => True); auto|].
        intros vars _.
        eapply preserves_bind.
        { apply preserves_mapM with (P := fun kv => S (snd kv)).
          intros v _.
          eapply preserves_bind; [apply preserves_getattr; exact HR|].
          intros value Hvalue.
          eapply preserves_bind; [apply IH; exact Hvalue|].
          intros r Hr. apply preserves_ret; exact Hr. }
        intros pairs Hpairs. apply preserves_alloc. simpl.
        apply dict_factory_keeps; exact Hpairs.
    + destruct (Store.is_array h obj).
      * apply preserves_construct. intros x Hx. apply IH.
        exact (@R_iter _ _ _ Hg HR Hx).
      * destruct (Store.isinstance_primitive h obj) eqn:Hp.
        -- apply preserves_ret. exact (@R_primitive _ _ Hg HR Hp).
        -- destruct (Store.isinstance_Enum h obj) eqn:He.
           ++ apply IH. exact (@R_enum_value _ _ Hg HR He).
           ++ apply preserves_serialize.
Qed.

End Frame.

(** Whatever it is given, [convert] leaves the objects of the store as
    they are and adds objects to it. *)
Lemma convert_grows
    (converter : Store.ConverterFactory) (context : XmlContext)
    (dict_factory : list (string * value) -> list (string * value))
    (fuel : nat) (obj : value) (var : option XmlVar)
    (h h' : store) (r : result value) :
  Store.convert converter context dict_factory fuel obj var h = (h', r) ->
  exists ext, h' = h ++ ext.
Proof.
  intros E.
  assert (Hall : forall xs : list value, Forall (fun _ => True) xs)
    by (intros xs; apply Forall_forall; auto).
  destruct (@preserves_convert (fun _ => True) h
              (fun _ => I) (fun _ _ => I) (fun _ => True)
              (fun _ _ _ _ _ _ _ _ => I) (fun _ _ _ _ _ => I)
              converter context dict_factory
              (fun pairs _ => Hall _)
              fuel obj var I h h' r) as [(ext & -> & _) _].
  - exists []. rewrite app_nil_r. split; [reflexivity | constructor].
  - exact E.
  - exists ext; reflexivity.
Qed.

Lemma closed_in_store h l o c :
  closed h = true -> nth_error h l = Some o -> In c (children o) ->
  in_store h c = true.
Proof.
  unfold closed. intros Hc Hl Hin.
  rewrite forallb_forall in Hc.
  specialize (Hc o (nth_error_In _ _ Hl)).
  rewrite forallb_forall in Hc. apply Hc; exact Hin.
Qed.

Lemma in_store_old h ext l :
  in_store h (VRef l) = true -> nth_error (h ++ ext) l = nth_error h l.
Proof.
  simpl. intros Hl. apply Nat.ltb_lt in Hl.
  apply nth_error_app1; exact Hl.
Qed.

(** [convert root] in a closed store: the values it meets are nodes of
    [root], and what it returns or stores is new or a dictionary among
    those nodes. *)
Lemma preserves_convert_shared
    (converter : Store.ConverterFactory) (context : XmlContext)
    (dict_factory : list (string * value) -> list (string * value))
    (h0 : store) (root : value) (fuel : nat) (var : option XmlVar) :
  closed h0 = true -> in_store h0 root = true -> assembles dict_factory ->
  preserves (fresh_or_shared h0 root) h0 (fresh_or_shared h0 root)
    (Store.convert converter context dict_factory fuel root var).
Proof.
  intros Hclosed Hroot Hdf.
  apply preserves_convert
    with (R := fun v => in_store h0 v = true
                        /\ forall l, reaches h0 v l -> reaches h0 root l).
  - intros s; exact I.
  - intros l Hl; left; exact Hl.
  - intros h obj o c (ext & -> & _) [Hin Hreach] Hd Hc.
    destruct obj as [s|l]; [discriminate Hd|].
    cbn [deref] in Hd. rewrite (@in_store_old _ _ _ Hin) in Hd.
    split.
    + exact (@closed_in_store _ _ _ _ Hclosed Hd Hc).
    + intros l' Hl'. apply Hreach.
      exact (@reaches_child _ _ _ _ _ Hd Hc Hl').
  - intros h obj (ext & -> & _) [Hin Hreach] Hp.
    destruct obj as [s|l]; [exact I|].
    cbn [Store.isinstance_primitive deref] in Hp.
    rewrite (@in_store_old _ _ _ Hin) in Hp.
    right. destruct (nth_error h0 l) as [[items| | | | | ]|] eqn:El;
      try discriminate Hp.
    exists items. split; [reflexivity|]. apply Hreach, reaches_here.
  - intros pairs Hpairs. apply Forall_forall. intros v Hv.
    apply Hdf in Hv. apply in_map_iff in Hv as (kv & <- & Hkv).
    rewrite Forall_forall in Hpairs. apply Hpairs; exact Hkv.
  - split; [exact Hroot | auto].
Qed.

(** ** No dangling reference *)

Lemma in_store_app h ext v :
  in_store h v = true -> in_store (h ++ ext) v = true.
Proof.
  destruct v as [s|l]; simpl; [auto|]. intros Hl.
  apply Nat.ltb_lt in Hl. apply Nat.ltb_lt. rewrite length_app. lia.
Qed.

Lemma in_store_all_app h ext vs :
  Forall (fun v => in_store h v = true) vs ->
  Forall (fun v => in_store (h ++ ext) v = true) vs.
Proof. apply Forall_impl. intros v; apply in_store_app. Qed.

Lemma closed_deref h obj o c :
  closed h = true -> deref h obj = Some o -> In c (children o) ->
  in_store h c = true.
Proof.
  destruct obj as [s|l]; [discriminate|]. simpl.
  intros Hc Hl Hin. exact (@closed_in_store _ _ _ _ Hc Hl Hin).
Qed.

Lemma closed_alloc h o :
  closed h = true ->
  Forall (fun c => in_store h c = true) (children o) ->
  closed (h ++ [o]) = true.
Proof.
  unfold closed. intros Hc Ho. rewrite forallb_app. apply andb_true_iff.
  split.
  - rewrite forallb_forall in *. intros x Hx.
    specialize (Hc x Hx). rewrite forallb_forall in *.
    intros c Hin. apply in_store_app, Hc, Hin.
  - simpl. rewrite andb_true_r. rewrite forallb_forall.
    rewrite Forall_forall in Ho.
    intros c Hin. apply in_store_app, Ho, Hin.
Qed.

Lemma extends_refl (h : store) : exists ext, h = h ++ ext.
Proof. exists []. rewrite app_nil_r. reflexivity. Qed.

Lemma keeps_closed_ret {A} (vals : A -> list value) live a :
  incl (vals a) live -> keeps_closed vals live (ret a).
Proof.
  intros Hin h h' r Hc Hl E. injection E as <- <-.
  split; [exact Hc|]. split; [apply extends_refl|].
  intros a' Ea; injection Ea as <-.
  apply Forall_forall. intros v Hv. rewrite Forall_forall in Hl.
  apply Hl, Hin, Hv.
Qed.

Lemma keeps_closed_raise {A} (vals : A -> list value) live e :
  keeps_closed vals live (raise e).
Proof.
  intros h h' r Hc Hl E. injection E as <- <-.
  split; [exact Hc|]. split; [apply extends_refl | discriminate].
Qed.

Lemma keeps_closed_live {A} (vals : A -> list value) live live' (c : M A) :
  incl live live' -> keeps_closed vals live c -> keeps_closed vals live' c.
Proof.
  intros Hin Hk h h' r Hc Hl E. apply (Hk h h' r Hc); [|exact E].
  apply Forall_forall. intros v Hv. rewrite Forall_forall in Hl.
  apply Hl, Hin, Hv.
Qed.

Lemma keeps_closed_bind {A B} (valsA : A -> list value)
    (valsB : B -> list value) live (c : M A) (k : A -> M B) :
  keeps_closed valsA live c ->
  (forall a, keeps_closed valsB (valsA a ++ live) (k a)) ->
  keeps_closed valsB live (bindM c k).
Proof.
  intros Hc Hk h h' r Hcl Hl E. unfold bindM in E.
  destruct (c h) as [h1 [a|e]] eqn:Ec.
  - destruct (Hc _ _ _ Hcl Hl Ec) as (Hc1 & [e1 ->] & Ha).
    assert (Hl1 : Forall (fun v => in_store (h ++ e1) v = true)
                    (valsA a ++ live)).
    { apply Forall_app. split; [apply Ha; reflexivity|].
      apply in_store_all_app; exact Hl. }
    destruct (Hk a _ _ _ Hc1 Hl1 E) as (Hc2 & [e2 ->] & Hb).
    split; [exact Hc2|]. split; [|exact Hb].
    exists (e1 ++ e2). rewrite app_assoc. reflexivity.
  - destruct (Hc _ _ _ Hcl Hl Ec) as (Hc1 & Hext & _).
    injection E as <- <-. split; [exact Hc1|].
    split; [exact Hext | discriminate].
Qed.

Lemma keeps_closed_alloc live o :
  incl (children o) live -> keeps_closed (fun v => [v]) live (alloc o).
Proof.
  intros Hin h h' r Hc Hl E. unfold alloc in E. injection E as <- <-.
  split.
  - apply closed_alloc; [exact Hc|]. apply Forall_forall. intros v Hv.
    rewrite Forall_forall in Hl. apply Hl, Hin, Hv.
  - split; [eauto|]. intros a Ea; injection Ea as <-.
    constructor; [|constructor]. simpl.
    apply Nat.ltb_lt. rewrite length_app. simpl. lia.
Qed.

Lemma keeps_closed_mapM {A B} (vals : B -> list value) live
    (f : A -> M B) xs :
  (forall x, In x xs -> keeps_closed vals live (f x)) ->
  keeps_closed (flat_map vals) live (Store.mapM f xs).
Proof.
  induction xs as [|x xs IH]; intros Hf; cbn [Store.mapM].
  - apply keeps_closed_ret. intros v [].
  - eapply keeps_closed_bind; [apply Hf; left; reflexivity|]. intros y.
    eapply keeps_closed_bind.
    + eapply keeps_closed_live; [|apply IH].
      * apply incl_appr, incl_refl.
      * intros z Hz; apply Hf; right; exact Hz.
    + intros ys. apply keeps_closed_ret. simpl.
      intros v Hv. apply in_app_or in Hv as [Hv|Hv].
      * apply in_or_app; right. apply in_or_app; left; exact Hv.
      * apply in_or_app; left; exact Hv.
Qed.

Lemma keeps_closed_getattr live obj nm :
  keeps_closed (fun v => [v]) live (Store.getattr obj nm).
Proof.
  intros h h' r Hc Hl E. unfold Store.getattr in E.
  assert (G : forall x : store * result value,
            (exists v, x = (h, Ok v) /\ in_store h v = true)
            \/ (exists e, x = (h, Raise e)) ->
            x = (h', r) ->
            closed h' = true /\ (exists ext, h' = h ++ ext)
            /\ forall a, r = Ok a ->
                 Forall (fun v => in_store h' v = true) [a]).
  { intros x [(v & -> & Hv)|(e & ->)] Ex; injection Ex as <- <-;
      (split; [exact Hc|]); (split; [apply extends_refl|]).
    - intros a Ea; injection Ea as <-. constructor; [exact Hv|constructor].
    - discriminate. }
  refine (G _ _ E).
  destruct (deref h obj) as [o|] eqn:Ed; [|eauto].
  destruct o as [ | | | cls attrs | | ]; eauto.
  destruct (Store.lookup nm attrs) as [v|] eqn:El; [|eauto].
  left. exists v. split; [reflexivity|].
  apply (@closed_deref _ _ _ _ Hc Ed). simpl.
  eapply lookup_children; exact El.
Qed.

Lemma keeps_closed_serialize live converter obj fmt :
  keeps_closed (fun v => [v]) live (Store.serialize converter obj fmt).
Proof.
  intros h h' r Hc Hl E. unfold Store.serialize in E.
  assert (G : forall x : store * result value,
            (exists s, x = (h, Ok (VScalar s)))
            \/ (exists e, x = (h, Raise e)) ->
            x = (h', r) ->
            closed h' = true /\ (exists ext, h' = h ++ ext)
            /\ forall a, r = Ok a ->
                 Forall (fun v => in_store h' v = true) [a]).
  { intros x [(s & ->)|(e & ->)] Ex; injection Ex as <- <-;
      (split; [exact Hc|]); (split; [apply extends_refl|]).
    - intros a Ea; injection Ea as <-. repeat constructor.
    - discriminate. }
  refine (G _ _ E).
  destruct obj as [[]|l]; eauto; destruct (converter _); eauto.
Qed.

Lemma keeps_closed_scalar live s :
  keeps_closed (fun v => [v]) live (ret (VScalar s)).
Proof.
  intros h h' r Hc Hl E. injection E as <- <-.
  split; [exact Hc|]. split; [apply extends_refl|].
  intros a Ea; injection Ea as <-. repeat constructor.
Qed.

Lemma flat_map_singleton (ys : list value) :
  flat_map (fun v => [v]) ys = ys.
Proof. induction ys as [|y ys IH]; simpl; [|rewrite IH]; reflexivity. Qed.

Lemma keeps_closed_construct live t (f : value -> M value) xs :
  (forall x, In x xs -> keeps_closed (fun v => [v]) live (f x)) ->
  keeps_closed (fun v => [v]) live (Store.construct t f xs).
Proof.
  intros Hf. unfold Store.construct.
  destruct (container_of t) as [[|]|].
  - eapply keeps_closed_bind; [apply keeps_closed_mapM; exact Hf|].
    intros ys. apply keeps_closed_alloc. simpl.
    rewrite flat_map_singleton. apply incl_appl, incl_refl.
  - eapply keeps_closed_bind; [apply keeps_closed_mapM; exact Hf|].
    intros ys. destruct ys as [|y ys]; cbn [new_tuple].
    + apply keeps_closed_scalar.
    + apply keeps_closed_alloc. cbn [children].
      rewrite flat_map_singleton. apply incl_appl, incl_refl.
  - apply keeps_closed_raise.
Qed.

Lemma keeps_closed_run {A} (vals : A -> list value) live (c : M A)
    h h' r :
  closed h = true ->
  Forall (fun v => in_store h v = true) live ->
  c h = (h', r) ->
  keeps_closed vals live c ->
  closed h' = true
  /\ (exists ext, h' = h ++ ext)
  /\ forall a, r = Ok a -> Forall (fun v => in_store h' v = true) (vals a).
Proof. intros Hc Hl E K. exact (K h h' r Hc Hl E). Qed.

(** [convert] leaves a closed store closed, and what it returns names
    an object of the store it leaves. *)
Lemma keeps_closed_convert
    (converter : Store.ConverterFactory) (context : XmlContext)
    (dict_factory : list (string * value) -> list (string * value))
    (Hdf : assembles dict_factory) (fuel : nat) :
  forall (obj : value) (var : option XmlVar),
    keeps_closed (fun v => [v]) [obj]
      (Store.convert converter context dict_factory fuel obj var).
Proof.
  induction fuel as [|fuel IH]; intros obj var.
  - apply keeps_closed_raise.
  - intros h h' r Hc Hl E.
    cbn [Store.convert] in E. unfold bindM at 1 in E. cbn [get] in E.
    assert (Hitems : Forall (fun v => in_store h v = true)
                       (Store.iter h obj)).
    { apply Forall_forall. intros x. unfold Store.iter.
      destruct (deref h obj) as [o|] eqn:Ed; [|intros []].
      destruct o; try (intros []); intros Hin;
        exact (@closed_deref _ _ _ _ Hc Ed Hin). }
    assert (Helems : forall w x,
              In x (Store.iter h obj) ->
              keeps_closed (fun v => [v]) (Store.iter h obj)
                (Store.convert converter context dict_factory fuel x w)).
    { intros w x Hx. eapply keeps_closed_live; [|apply IH].
      intros v [<-|[]]; exact Hx. }
    destruct (var_is_None var || Store.is_model context h obj).
    + destruct (Store.is_array h obj).
      * apply (@keeps_closed_run _ (fun v => [v]) _ _ _ _ _ Hc Hitems E).
        eapply keeps_closed_bind;
          [apply keeps_closed_mapM; intros x Hx; apply Helems; exact Hx|].
        intros ys. apply keeps_closed_alloc. simpl.
        rewrite flat_map_singleton. apply incl_appl, incl_refl.
      * apply (@keeps_closed_run _ (fun v => [v]) _ _ _ _ _ Hc Hl E).
        unfold lift.
        destruct (build context (Store.type_of h obj)) as [vars|e].
        -- change (keeps_closed (fun v => [v]) [obj]
                     (bindM (ret vars)
                        (fun vars0 =>
                           bindM
                             (Store.mapM
                                (fun var0 =>
                                   bindM (Store.getattr obj (name var0))
                                     (fun value =>
                                        bindM
                                          (Store.convert converter context
                                             dict_factory fuel value
                                             (Some var0))
                                          (fun r0 =>
                                             ret (local_name var0, r0))))
                                vars0)
                             (fun pairs =>
                                alloc (ODict (dict_factory pairs)))))).
           eapply keeps_closed_bind with (valsA := fun _ => []);
             [apply keeps_closed_ret; intros v []|].
           intros vars0. cbn [app].
           eapply keeps_closed_bind
             with (valsA := flat_map (fun p : string * value => [snd p])).
           ++ apply keeps_closed_mapM. intros x _.
              eapply keeps_closed_bind; [apply keeps_closed_getattr|].
              intros value.
              eapply keeps_closed_bind.
              ** eapply keeps_closed_live; [|apply IH].
                 intros v [<-|[]]. left; reflexivity.
              ** intros r0. apply keeps_closed_ret. simpl.
                 intros v [<-|[]]. left; reflexivity.
           ++ intros pairs. apply keeps_closed_alloc. simpl.
              intros v Hv. apply Hdf in Hv. apply in_or_app; left.
              apply in_map_iff in Hv as (kv & <- & Hkv).
              apply in_flat_map. exists kv. split; [exact Hkv|].
              left; reflexivity.
        -- intros ha hb rb Hca Hla Ea. unfold bindM in Ea.
           injection Ea as <- <-. split; [exact Hca|].
           split; [apply extends_refl | discriminate].
    + destruct (Store.is_array h obj).
      * apply (@keeps_closed_run _ (fun v => [v]) _ _ _ _ _ Hc Hitems E).
        apply keeps_closed_construct. intros x Hx. apply Helems; exact Hx.
      * destruct (Store.isinstance_primitive h obj).
        -- apply (@keeps_closed_run _ (fun v => [v]) _ _ _ _ _ Hc Hl E).
           apply keeps_closed_ret. apply incl_refl.
        -- destruct (Store.isinstance_Enum h obj) eqn:He.
           ++ assert (Hval : Forall (fun v => in_store h v = true)
                               [Store.enum_value h obj]).
              { constructor; [|constructor].
                unfold Store.isinstance_Enum in He.
                unfold Store.enum_value.
                destruct (deref h obj) as [o|] eqn:Ed; [|discriminate].
                destruct o; try discriminate.
                apply (@closed_deref _ _ _ _ Hc Ed). left; reflexivity. }
              exact (IH _ _ h h' r Hc Hval E).
           ++ apply (@keeps_closed_run _ (fun v => [v]) _ _ _ _ _ Hc Hl E).
              apply keeps_closed_serialize.
Qed.

(** C8, as amended.  Whatever the outcome of [convert], it does not
    change any object: the store after the call is the store before it
    followed by the objects the call created, and it has no dangling
    reference.  The result is not an independent copy, though.  What
    [convert] returns, and what the objects it created hold, is a
    scalar (null, a boolean, a number, text, the empty tuple), one of
    the created objects, or a dictionary that is a node of the input:
    such a dictionary is the same object in the output as in the
    input. *)
Theorem convert_allocates_only
    (converter : Store.ConverterFactory) (context : XmlContext)
    (dict_factory : list (string * value) -> list (string * value))
    (fuel : nat) (obj : value) (var : option XmlVar)
    (h h' : store) (r : result value) :
  closed h = true ->
  in_store h obj = true ->
  assembles dict_factory ->
  Store.convert converter context dict_factory fuel obj var h = (h', r) ->
  (exists ext,
     h' = h ++ ext /\
     Forall (fun o => Forall (fresh_or_shared h obj) (children o)) ext)
  /\ (forall l o, nth_error h l = Some o -> nth_error h' l = Some o)
  /\ closed h' = true
  /\ (forall v, r = Ok v ->
                fresh_or_shared h obj v /\ in_store h' v = true).
Proof.
  intros Hclosed Hobj Hdf E.
  destruct (@preserves_convert_shared converter context dict_factory
              h obj fuel var Hclosed Hobj Hdf h h' r) as [Hg Hr].
  - exists []. rewrite app_nil_r. split; [reflexivity | constructor].
  - exact E.
  - destruct (@keeps_closed_convert converter context dict_factory Hdf
                fuel obj var h h' r Hclosed) as (Hc' & _ & Hv); [|exact E|].
    { constructor; [exact Hobj | constructor]. }
    split; [exact Hg|]. split; [|split; [exact Hc'|]].
    + destruct Hg as (ext & -> & _). intros l o Hl.
      rewrite nth_error_app1; [exact Hl|].
      apply nth_error_Some. congruence.
    + intros v Ev. split; [apply Hr; exact Ev|].
      specialize (Hv v Ev). inversion Hv; assumption.
Qed.

Lemma convert_allocates_only_witness :
  (exists ext,
     StoreSamples.bag_store ++ [ODict [("attrs", VRef 0)]]
     = StoreSamples.bag_store ++ ext /\
     Forall (fun o => Forall (fresh_or_shared StoreSamples.bag_store
                                StoreSamples.bag)
                             (children o)) ext)
  /\ (forall l o,
        nth_error StoreSamples.bag_store l = Some o ->
        nth_error (StoreSamples.bag_store ++ [ODict [("attrs", VRef 0)]]) l
        = Some o)
  /\ closed (StoreSamples.bag_store ++ [ODict [("attrs", VRef 0)]]) = true
  /\ (forall v, Ok (VRef 2) = Ok v ->
                fresh_or_shared StoreSamples.bag_store StoreSamples.bag v
                /\ in_store
                     (StoreSamples.bag_store ++ [ODict [("attrs", VRef 0)]])
                     v = true).
Proof.
  apply (@convert_allocates_only StoreSamples.no_converters
           Samples.sample_context Store.dict 8 StoreSamples.bag None
           StoreSamples.bag_store
           (StoreSamples.bag_store ++ [ODict [("attrs", VRef 0)]])
           (Ok (VRef 2))).
  - reflexivity.
  - reflexivity.
  - exact assembles_dict.
  - reflexivity.
Defined.

(** C8 fails as stated: converting [Bag(attrs=d)] returns a new map
    whose value for [attrs] is the dictionary [d] itself, the object at
    address 0 of the input. *)
Lemma convert_allocates_only_counterexample :
  Store.convert StoreSamples.no_converters Samples.sample_context
    Store.dict 8 StoreSamples.bag None StoreSamples.bag_store
  = (StoreSamples.bag_store ++ [ODict [("attrs", VRef 0)]], Ok (VRef 2))
  /\ reaches StoreSamples.bag_store StoreSamples.bag 0
  /\ reaches (StoreSamples.bag_store ++ [ODict [("attrs", VRef 0)]])
       (VRef 2) 0
  /\ ~ (forall converter context dict_factory fuel obj var h h' v l,
          closed h = true ->
          in_store h obj = true ->
          assembles dict_factory ->
          Store.convert converter context dict_factory fuel obj var h
          = (h', Ok v) ->
          reaches h' v l -> ~ reaches h obj l).
Proof.
  assert (Hin : reaches StoreSamples.bag_store StoreSamples.bag 0).
  { eapply reaches_child with (o := OModel "Bag" [("attrs", VRef 0)]);
      [reflexivity | left; reflexivity | apply reaches_here]. }
  assert (Hout : reaches
                   (StoreSamples.bag_store ++ [ODict [("attrs", VRef 0)]])
                   (VRef 2) 0).
  { eapply reaches_child with (o := ODict [("attrs", VRef 0)]);
      [reflexivity | left; reflexivity | apply reaches_here]. }
  split; [reflexivity|]. split; [exact Hin|]. split; [exact Hout|].
  intros H.
  exact (H StoreSamples.no_converters Samples.sample_context Store.dict 8
           StoreSamples.bag None StoreSamples.bag_store _ _ 0
           eq_refl eq_refl assembles_dict eq_refl Hout Hin).
Qed.

End StoreFacts.

(* ================================================================== *)
(** * Facts about [resolve_source]                                    *)
(* ================================================================== *)

Module CliFacts.
Import Cli.

Lemma prefix_begins_with p s :
  String.prefix p s = true <-> begins_with p s.
Proof.
  unfold begins_with. revert s.
  induction p as [|a p IH]; intros s.
  - split; [intros _; exists s; reflexivity | intros _; destruct s; reflexivity].
  - destruct s as [|b s]; simpl.
    + split; [discriminate | intros (rest & H); discriminate H].
    + destruct (ascii_dec a b) as [->|Hne].
      * rewrite IH. split; intros (rest & H); exists rest.
        -- rewrite H; reflexivity.
        -- injection H as H; exact H.
      * split; [discriminate|]. intros (rest & H). injection H as H _.
        congruence.
Qed.

Lemma index_occurs_in sub s :
  (exists i, String.index 0 sub s = Some i) <-> occurs_in sub s.
Proof.
  unfold occurs_in. split.
  - induction s as [|b s IH].
    + simpl. destruct sub; intros (i & H); [|discriminate H].
      exists EmptyString, EmptyString; reflexivity.
    + intros (i & H). cbn [String.index] in H.
      destruct (String.prefix sub (String b s)) eqn:Hp.
      * apply prefix_begins_with in Hp as (rest & ->).
        exists EmptyString, rest; reflexivity.
      * destruct (String.index 0 sub s) as [n|]; [|discriminate H].
        destruct IH as (pre & post & ->); [eauto|].
        exists (String b pre), post; reflexivity.
  - intros (pre & post & ->). induction pre as [|a pre IH].
    + cbn [String.append].
      assert (Hp : String.prefix sub (String.append sub post) = true)
        by (apply prefix_begins_with; exists post; reflexivity).
      destruct (String.append sub post) as [|b t] eqn:E.
      * destruct sub; [|discriminate E]. simpl; eauto.
      * cbn [String.index]. rewrite Hp. eauto.
    + cbn [String.append String.index].
      destruct (String.prefix sub _); [eauto|].
      destruct IH as (i & ->). eauto.
Qed.

Lemma str_find_occurs_in s sub :
  (str_find s sub >? -1)%Z = true <-> occurs_in sub s.
Proof.
  rewrite <- index_occurs_in. unfold str_find.
  destruct (String.index 0 sub s) as [i|].
  - split; [eauto|]. intros _. apply Z.gtb_lt. lia.
  - split; [discriminate|]. intros (i & H); discriminate H.
Qed.

Lemma glob_star fs (p : path fs) ext :
  map (as_uri fs) (glob fs p (String "*" (String.append "." ext)))
  = uris_with_extension fs p ext.
Proof.
  unfold glob, uris_with_extension. rewrite map_map. reflexivity.
Qed.

(** C10.  [resolve_source] yields the source itself, and nothing else,
    when the source contains [://] and does not begin with [file://].
    Otherwise it resolves the source as a path: for a directory it
    yields the URIs of the entries ending with [.wsdl], then of those
    ending with [.xsd], then [.xml], then [.json]; for any other path
    it yields the URI of that path alone. *)
Theorem resolve_source_cases (fs : FileSystem) (source : string) :
  (occurs_in "://" source /\ ~ begins_with "file://" source ->
   resolve_source fs source = [source])
  /\ (~ (occurs_in "://" source /\ ~ begins_with "file://" source) ->
      is_dir fs (resolve fs source) = true ->
      resolve_source fs source
      = flat_map (uris_with_extension fs (resolve fs source))
                 ["wsdl"; "xsd"; "xml"; "json"])
  /\ (~ (occurs_in "://" source /\ ~ begins_with "file://" source) ->
      is_dir fs (resolve fs source) = false ->
      resolve_source fs source = [as_uri fs (resolve fs source)]).
Proof.
  unfold resolve_source, startswith.
  destruct (str_find source "://" >? -1)%Z eqn:Hf;
    destruct (String.prefix "file://" source) eqn:Hp; cbn [andb negb].
  - (* a file:// URI *)
    apply prefix_begins_with in Hp.
    split; [intros [_ H]; contradiction|].
    split; intros _ ->; [|reflexivity].
    cbn [flat_map]. rewrite app_nil_r, <- !glob_star. reflexivity.
  - (* a URI of another scheme *)
    apply str_find_occurs_in in Hf.
    assert (Hn : ~ begins_with "file://" source).
    { intros H; apply prefix_begins_with in H; congruence. }
    split; [reflexivity|].
    split; intros H; exfalso; apply H; split; assumption.
  - (* a path *)
    assert (Hn : ~ occurs_in "://" source).
    { intros H; apply str_find_occurs_in in H; congruence. }
    split; [intros [H _]; contradiction|].
    split; intros _ ->; [|reflexivity].
    cbn [flat_map]. rewrite app_nil_r, <- !glob_star. reflexivity.
  - assert (Hn : ~ occurs_in "://" source).
    { intros H; apply str_find_occurs_in in H; congruence. }
    split; [intros [H _]; contradiction|].
    split; intros _ ->; [|reflexivity].
    cbn [flat_map]. rewrite app_nil_r, <- !glob_star. reflexivity.
Qed.

(** A URL is passed through; the directory [/schemas] lists its WSDL
    file first, then its schemas in scan order, then its JSON file. *)
Lemma resolve_source_cases_witness :
  resolve_source CliSamples.sample_fs "http://host/a.xsd"
  = ["http://host/a.xsd"]
  /\ resolve_source CliSamples.sample_fs "/schemas"
     = ["file:///schemas/a.wsdl"; "file:///schemas/b.xsd";
        "file:///schemas/a.xsd"; "file:///schemas/c.json"]
  /\ resolve_source CliSamples.sample_fs "/schemas/a.xsd"
     = ["file:///schemas/a.xsd"].
Proof.
  split; [|split].
  - apply (proj1 (resolve_source_cases CliSamples.sample_fs
                    "http://host/a.xsd")).
    split.
    + exists "http", "host/a.xsd"; reflexivity.
    + intros (rest & H); discriminate H.
  - apply (proj1 (proj2 (resolve_source_cases CliSamples.sample_fs
                           "/schemas"))).
    + intros [H _]. apply str_find_occurs_in in H. discriminate H.
    + reflexivity.
  - apply (proj2 (proj2 (resolve_source_cases CliSamples.sample_fs
                           "/schemas/a.xsd"))).
    + intros [H _]. apply str_find_occurs_in in H. discriminate H.
    + reflexivity.
Defined.

End CliFacts.

(* ================================================================== *)
(** * Further facts about the serializer on values                    *)
(* ================================================================== *)

Module JsonMore.
Import Py Json JsonSpec.

(** ** Dictionaries built from pairs *)

Lemma lookup_dict_setitem k v k' (d : list (string * pyobj)) :
  lookup k' (dict_setitem k v d)
  = if String.eqb k k' then Some v else lookup k' d.
Proof.
  induction d as [|[k0 v0] d IH]; simpl.
  - reflexivity.
  - destruct (String.eqb_spec k0 k) as [->|Hne]; simpl.
    + destruct (String.eqb k k'); reflexivity.
    + destruct (String.eqb_spec k0 k') as [->|Hne'].
      * destruct (String.eqb_spec k k'); [congruence | reflexivity].
      * exact IH.
Qed.

Lemma keys_dict_setitem {V : Type} k (v : V) d :
  keys (dict_setitem k v d)
  = if existsb (String.eqb k) (keys d) then keys d else keys d ++ [k].
Proof.
  unfold keys. induction d as [|[k0 v0] d IH]; simpl; [reflexivity|].
  rewrite (String.eqb_sym k k0).
  destruct (String.eqb k0 k); simpl; [reflexivity|].
  rewrite IH. destruct (existsb (String.eqb k) (map fst d)); reflexivity.
Qed.

Lemma existsb_eqb_In k ks :
  existsb (String.eqb k) ks = true <-> In k ks.
Proof.
  rewrite existsb_exists. split.
  - intros (x & Hx & E). apply String.eqb_eq in E. subst; exact Hx.
  - intros H. exists k. split; [exact H | apply String.eqb_refl].
Qed.

Lemma NoDup_keys_dict_setitem {V : Type} k (v : V) d :
  NoDup (keys d) -> NoDup (keys (dict_setitem k v d)).
Proof.
  intros H. rewrite keys_dict_setitem.
  destruct (existsb (String.eqb k) (keys d)) eqn:E; [exact H|].
  apply NoDup_app; [exact H | repeat constructor; intros [] | ].
  intros x Hx [<-|[]]. apply existsb_eqb_In in Hx. congruence.
Qed.

Lemma values_dict_setitem {V : Type} (P : V -> Prop) k v d :
  P v -> Forall (fun kv => P (snd kv)) d ->
  Forall (fun kv => P (snd kv)) (dict_setitem k v d).
Proof.
  intros Hv. induction 1 as [|[k0 v0] d H0 Hd IH]; simpl.
  - repeat constructor; exact Hv.
  - destruct (String.eqb k0 k); constructor; auto.
Qed.

Lemma lookup_app k (a b : list (string * pyobj)) :
  lookup k (a ++ b)
  = match lookup k a with Some v => Some v | None => lookup k b end.
Proof.
  induction a as [|[k0 v0] a IH]; simpl; [reflexivity|].
  destruct (String.eqb k0 k); [reflexivity | exact IH].
Qed.

Lemma lookup_fold_setitem k pairs (acc : list (string * pyobj)) :
  lookup k (fold_left (fun d kv => dict_setitem (fst kv) (snd kv) d)
                      pairs acc)
  = match lookup k (rev pairs) with
    | Some v => Some v
    | None => lookup k acc
    end.
Proof.
  revert acc. induction pairs as [|[k0 v0] pairs IH]; intros acc; simpl.
  - reflexivity.
  - rewrite IH, lookup_app, lookup_dict_setitem. simpl.
    destruct (lookup k (rev pairs)); [reflexivity|].
    destruct (String.eqb k0 k); reflexivity.
Qed.

Lemma filter_filter_mem k (seen : list string) ks :
  existsb (String.eqb k) seen = true ->
  filter (fun k' => negb (existsb (String.eqb k') seen))
         (filter (fun k' => negb (String.eqb k' k)) ks)
  = filter (fun k' => negb (existsb (String.eqb k') seen)) ks.
Proof.
  intros Hk. induction ks as [|a ks IH]; simpl; [reflexivity|].
  destruct (String.eqb_spec a k) as [->|Hne]; simpl.
  - rewrite Hk; simpl. exact IH.
  - rewrite IH. reflexivity.
Qed.

Lemma filter_app_mem k (seen : list string) ks :
  filter (fun k' => negb (existsb (String.eqb k') (seen ++ [k]))) ks
  = filter (fun k' => negb (existsb (String.eqb k') seen))
           (filter (fun k' => negb (String.eqb k' k)) ks).
Proof.
  induction ks as [|a ks IH]; simpl; [reflexivity|].
  rewrite existsb_app; simpl. rewrite orb_false_r.
  destruct (String.eqb a k); simpl.
  - rewrite orb_true_r; simpl. exact IH.
  - rewrite orb_false_r.
    destruct (existsb (String.eqb a) seen); simpl; [exact IH|].
    rewrite IH; reflexivity.
Qed.

Lemma keys_fold_setitem {V : Type} (pairs acc : list (string * V)) :
  keys (fold_left (fun d kv => dict_setitem (fst kv) (snd kv) d) pairs acc)
  = keys acc
    ++ filter (fun k' => negb (existsb (String.eqb k') (keys acc)))
              (first_occurrences (keys pairs)).
Proof.
  revert acc. induction pairs as [|[k v] pairs IH]; intros acc; simpl.
  - rewrite app_nil_r; reflexivity.
  - rewrite IH, keys_dict_setitem. simpl.
    destruct (existsb (String.eqb k) (keys acc)) eqn:E; simpl.
    + rewrite filter_filter_mem by exact E. reflexivity.
    + rewrite <- app_assoc. simpl. rewrite filter_app_mem. reflexivity.
Qed.

(** [dict] lists each key once, at its first occurrence, with the value
    of its last occurrence. *)
Lemma dict_items_keys {V : Type} (pairs : list (string * V)) :
  keys (dict_items pairs) = first_occurrences (keys pairs).
Proof.
  unfold dict_items. rewrite keys_fold_setitem. simpl.
  induction (first_occurrences (keys pairs)) as [|a l IH]; simpl;
    [reflexivity | f_equal; exact IH].
Qed.

Lemma dict_items_lookup k pairs :
  lookup k (dict_items pairs) = last_value k pairs.
Proof.
  unfold dict_items, last_value. rewrite lookup_fold_setitem.
  destruct (lookup k (rev pairs)); reflexivity.
Qed.

Lemma dict_items_NoDup {V : Type} (pairs : list (string * V)) :
  NoDup (keys (dict_items pairs)).
Proof.
  unfold dict_items. generalize (@NoDup_nil string).
  change (@nil string) with (keys (@nil (string * V))).
  generalize (@nil (string * V)) as acc.
  induction pairs as [|[k v] pairs IH]; intros acc H; simpl; [exact H|].
  apply IH, NoDup_keys_dict_setitem, H.
Qed.

Lemma dict_items_values {V : Type} (P : V -> Prop) (pairs : list (string * V)) :
  Forall (fun kv => P (snd kv)) pairs ->
  Forall (fun kv => P (snd kv)) (dict_items pairs).
Proof.
  unfold dict_items. intros H.
  assert (G : forall acc, Forall (fun kv => P (snd kv)) acc ->
              Forall (fun kv => P (snd kv))
                (fold_left (fun d kv => dict_setitem (fst kv) (snd kv) d)
                           pairs acc)).
  { induction H as [|[k v] pairs Hv _ IH]; intros acc Hacc; simpl;
      [exact Hacc|].
    apply IH, values_dict_setitem; assumption. }
  apply G; constructor.
Qed.

(** ** [filter_none] *)

Lemma filter_none_no_null (x : list (string * pyobj)) :
  exists d, filter_none x = PDict d
            /\ NoDup (keys d)
            /\ Forall (fun kv => snd kv <> PNone) d.
Proof.
  exists (dict_items (filter (fun kv => negb (is_None (snd kv))) x)).
  split; [apply JsonFacts.filter_none_dict|].
  split; [apply dict_items_NoDup|].
  apply dict_items_values with (P := fun v => v <> PNone).
  apply Forall_forall. intros [k v] Hin.
  apply filter_In in Hin as [_ Hn]. simpl in *.
  intros ->. discriminate Hn.
Qed.

(** X1.  The map [filter_none] builds from any pairs lists each key
    once and holds no null value. *)
Theorem filter_none_invariant (x : list (string * pyobj)) :
  exists d, filter_none x = PDict d
            /\ NoDup (keys d)
            /\ Forall (fun kv => snd kv <> PNone) d.
Proof.
  exists (dict_items (filter (fun kv => negb (is_None (snd kv))) x)).
  split; [apply JsonFacts.filter_none_dict|].
  split; [apply dict_items_NoDup|].
  apply dict_items_values with (P := fun v => v <> PNone).
  apply Forall_forall. intros [k v] Hin.
  apply filter_In in Hin as [_ Hn]. simpl in *.
  intros ->. discriminate Hn.
Qed.

(** X2.  Looking a key up in the map of [filter_none] gives the value
    of the last pair with that key whose value is not null, and nothing
    when there is no such pair: a later null does not hide an earlier
    value. *)
Theorem filter_none_lookup (x : list (string * pyobj)) (k : string) :
  exists d, filter_none x = PDict d
            /\ lookup k d = last_value k (filter not_None x)
            /\ keys d = first_occurrences (keys (filter not_None x)).
Proof.
  exists (dict_items (filter not_None x)).
  split; [apply JsonFacts.filter_none_dict|].
  split; [apply dict_items_lookup | apply dict_items_keys].
Qed.

(** ** Induction on object trees *)

Lemma pyobj_nested_ind (P : pyobj -> Prop) :
  P PNone ->
  (forall b, P (PBool b)) ->
  (forall z, P (PInt z)) ->
  (forall bits, P (PFloat bits)) ->
  (forall s, P (PStr s)) ->
  (forall items, Forall (fun kv => P (snd kv)) items -> P (PDict items)) ->
  (forall k items, Forall P items -> P (PColl k items)) ->
  (forall cls nm value, P value -> P (PEnum cls nm value)) ->
  (forall cls attrs,
      Forall (fun kv => P (snd kv)) attrs -> P (PModel cls attrs)) ->
  (forall cls items, Forall P items -> P (PArrayModel cls items)) ->
  (forall cls repr, P (POpaque cls repr)) ->
  forall obj, P obj.
Proof.
  intros HN HB HI HF HS HD HC HE HM HA HO.
  fix IH 1.
  intros [ | b | z | bits | s | items | k items | cls nm value
         | cls attrs | cls items | cls repr ].
  - exact HN.
  - apply HB.
  - apply HI.
  - apply HF.
  - apply HS.
  - apply HD.
    induction items as [|[k v] items IHi]; constructor;
      [apply IH | exact IHi].
  - apply HC.
    induction items as [|v items IHi]; constructor; [apply IH | exact IHi].
  - apply HE, IH.
  - apply HM.
    induction attrs as [|[k v] attrs IHi]; constructor;
      [apply IH | exact IHi].
  - apply HA.
    induction items as [|v items IHi]; constructor; [apply IH | exact IHi].
  - apply HO.
Qed.

Lemma construct_coll_ext k (f g : pyobj -> result pyobj) xs :
  (forall x, In x xs -> f x = g x) ->
  construct_coll k f xs = construct_coll k g xs.
Proof.
  intros H. unfold construct_coll.
  rewrite (JsonFacts.mapM_ext f g xs H); reflexivity.
Qed.

Section FieldIndependence.
Variable converter : ConverterFactory.
Variable self : JsonSerializer.

(** X3.  A record of a described type converts to the same result
    under every enclosing field and at the root: the field it sits in,
    and its format hint, play no part. *)
Theorem convert_model_ignores_field
    (obj : pyobj) (var var' : option XmlVar) :
  is_model (context self) obj = true ->
  convert converter self obj var = convert converter self obj var'.
Proof.
  intros Hm.
  rewrite (JsonFacts.convert_unfold converter self obj var).
  rewrite (JsonFacts.convert_unfold converter self obj var').
  unfold convert_body. rewrite Hm, !orb_true_r. reflexivity.
Qed.

(** X4.  Of the enclosing field, [convert] uses the format hint only:
    two descriptors with the same format hint give the same result for
    every value, whatever their names. *)
Theorem convert_uses_format_only (obj : pyobj) (f f' : XmlVar) :
  format f = format f' ->
  convert converter self obj (Some f) = convert converter self obj (Some f').
Proof.
  intros Hfmt. induction obj as
    [ | b | z | bits | s | items _ | k items IH | cls nm value IH
    | cls attrs _ | cls items _ | cls repr ] using pyobj_nested_ind;
    try reflexivity.
  - (* collection *)
    rewrite (JsonFacts.convert_unfold converter self _ (Some f)).
    rewrite (JsonFacts.convert_unfold converter self _ (Some f')).
    unfold convert_body. cbn [var_is_None is_model orb is_array iter].
    unfold construct. destruct (container_of (type_of (PColl k items)));
      [|reflexivity].
    apply construct_coll_ext. rewrite Forall_forall in IH. exact IH.
  - (* enumeration member *)
    rewrite (JsonFacts.convert_unfold converter self _ (Some f)).
    rewrite (JsonFacts.convert_unfold converter self _ (Some f')).
    exact IH.
  - (* record *)
    destruct (is_model (context self) (PModel cls attrs)) eqn:Hm.
    + apply convert_model_ignores_field; exact Hm.
    + rewrite (JsonFacts.convert_unfold converter self _ (Some f)).
      rewrite (JsonFacts.convert_unfold converter self _ (Some f')).
      unfold convert_body. rewrite Hm. cbn [var_is_None orb is_array
        isinstance_primitive isinstance_Enum var_format].
      rewrite Hfmt. reflexivity.
  - (* opaque scalar *)
    simpl. rewrite Hfmt. reflexivity.
Qed.

End FieldIndependence.

(** ** Records: what converts, and what the map holds *)

Section Records.
Variable converter : ConverterFactory.
Variable self : JsonSerializer.



(** X6.  The first described field that fails decides the outcome of a
    record: when the fields before it convert, the exception raised by
    reading its attribute or by converting its value is the exception
    [convert] raises; an attribute the instance lacks raises
    AttributeError. *)
Theorem convert_model_first_failure
    (cls : string) (attrs : list (string * pyobj)) (var : option XmlVar)
    (pre post : list XmlVar) (v : XmlVar) (rs : list pyobj) (e : exn) :
  descriptors (context self) cls = Some (pre ++ v :: post) ->
  Forall2 (fun v r => exists value,
             getattr (PModel cls attrs) (name v) = Ok value /\
             convert converter self value (Some v) = Ok r) pre rs ->
  (lookup (name v) attrs = None /\ e = AttributeError (TRecord cls) (name v))
  \/ (exists value, lookup (name v) attrs = Some value /\
                    convert converter self value (Some v) = Raise e) ->
  convert converter self (PModel cls attrs) var = Raise e.
Proof.
  intros Hd Hpre Hv.
  rewrite JsonFacts.convert_unfold; unfold convert_body.
  assert (Hm : is_model (context self) (PModel cls attrs) = true)
    by (simpl; rewrite Hd; reflexivity).
  rewrite Hm, orb_true_r. cbn [is_array type_of build]. rewrite Hd.
  cbn [bind].
  erewrite JsonFacts.mapM_Raise with (e := e)
    (ys := combine (map local_name pre) rs); [reflexivity| |].
  - clear Hd Hm Hv.
    induction Hpre as [|w r pre rs (value & Hg & Hc) _ IH];
      cbn [combine map]; constructor; auto.
    rewrite Hg; cbn [bind]. rewrite Hc; reflexivity.
  - unfold getattr.
    destruct Hv as [[Hl ->] | (value & Hl & Hc)]; rewrite Hl; cbn [bind].
    + reflexivity.
    + rewrite Hc; reflexivity.
Qed.

(** X7.  With the default builder the map of a record has one key per
    distinct external name, in the order in which the names first occur
    among the descriptors, and a name that several descriptors share is
    paired with the conversion of the last field carrying it. *)
Theorem convert_model_shared_names
    (cls : string) (attrs : list (string * pyobj)) (var : option XmlVar)
    (vars : list XmlVar) (rs : list pyobj) :
  dict_factory self = dict ->
  descriptors (context self) cls = Some vars ->
  Forall2 (fun v r => exists value,
             getattr (PModel cls attrs) (name v) = Ok value /\
             convert converter self value (Some v) = Ok r) vars rs ->
  exists d,
    convert converter self (PModel cls attrs) var = Ok (PDict d)
    /\ keys d = first_occurrences (map local_name vars)
    /\ NoDup (keys d)
    /\ forall k,
         lookup k d = last_value k (combine (map local_name vars) rs).
Proof.
  intros Hdict Hd Hf.
  exists (dict_items (combine (map local_name vars) rs)).
  split; [|split; [|split]].
  - rewrite (@JsonFacts.convert_model converter self cls attrs var vars rs
               Hd Hf), Hdict. reflexivity.
  - rewrite dict_items_keys, JsonFacts.keys_combine; [reflexivity|].
    rewrite length_map. eapply Forall2_length; eassumption.
  - apply dict_items_NoDup.
  - intros k. apply dict_items_lookup.
Qed.

(** X8.  With the omit-null builder every map [convert] returns for a
    record of a described type is free of null values and lists each
    key once.  A described record that is a collection as well gives
    no map: it converts to a list. *)
Theorem convert_model_omit_null
    (obj : pyobj) (var : option XmlVar) (out : pyobj) :
  dict_factory self = DictFactory.FILTER_NONE ->
  is_model (context self) obj = true ->
  convert converter self obj var = Ok out ->
  (is_array obj = false
   /\ exists d, out = PDict d
                /\ NoDup (keys d)
                /\ Forall (fun kv => snd kv <> PNone) d)
  \/ (is_array obj = true /\ exists rs, out = PColl KList rs).
Proof.
  intros Hf Hm. rewrite JsonFacts.convert_unfold; unfold convert_body.
  rewrite Hm, orb_true_r. destruct (is_array obj); intros H.
  - right. split; [reflexivity|].
    apply JsonFacts.bind_Ok in H as (rs & _ & H). injection H as <-.
    eauto.
  - left. split; [reflexivity|].
    apply JsonFacts.bind_Ok in H as (vars & _ & H).
    apply JsonFacts.bind_Ok in H as (pairs & _ & H). injection H as <-.
    rewrite Hf. apply filter_none_no_null.
Qed.

End Records.

(** ** Collections *)

Section Collections.
Variable converter : ConverterFactory.
Variable self : JsonSerializer.

(** X9.  A list or tuple under an enclosing field converts exactly when
    each of its elements converts under that field, and then to the
    container of the same type holding those conversions in order: one
    element that raises makes the whole conversion raise. *)
Theorem convert_collection_iff
    (k : coll) (items : list pyobj) (f : XmlVar) (out : pyobj) :
  convert converter self (PColl k items) (Some f) = Ok out
  <-> exists rs,
        out = PColl k rs /\
        Forall2 (fun o r => convert converter self o (Some f) = Ok r)
                items rs.
Proof.
  rewrite JsonFacts.convert_unfold; unfold convert_body.
  cbn [var_is_None is_model orb is_array iter]. unfold construct.
  split.
  - destruct k; cbn [type_of container_of]; unfold construct_coll;
      intros H; apply JsonFacts.bind_Ok in H as (rs & Hrs & H);
      injection H as <-; exists rs; split; try reflexivity;
      apply JsonFacts.mapM_Ok_Forall2; exact Hrs.
  - intros (rs & -> & Hf).
    destruct k; cbn [type_of container_of];
      apply JsonFacts.construct_ordered; assumption.
Qed.

End Collections.

(** ** The root *)

(** X21.  A call with no enclosing field returns only for a collection,
    giving the list of its elements converted with no enclosing field,
    or for a record of a described type, giving a map made by the
    builder: a scalar, dictionary, enumeration member, opaque object or
    undescribed record at the root always raises. *)
Theorem convert_root_result
    (converter : ConverterFactory) (self : JsonSerializer)
    (obj out : pyobj) :
  convert converter self obj None = Ok out ->
  (is_array obj = true
   /\ exists rs,
        out = PColl KList rs
        /\ Forall2 (fun o r => convert converter self o None = Ok r)
                   (iter obj) rs)
  \/ (is_model (context self) obj = true
      /\ exists pairs, out = dict_factory self pairs).
Proof.
  rewrite JsonFacts.convert_unfold; unfold convert_body.
  cbn [var_is_None orb]. destruct (is_array obj) eqn:Ha.
  - intros H. left. split; [reflexivity|].
    apply JsonFacts.bind_Ok in H as (rs & Hrs & H). injection H as <-.
    exists rs. split; [reflexivity|].
    apply JsonFacts.mapM_Ok_Forall2; exact Hrs.
  - intros H. right.
    apply JsonFacts.bind_Ok in H as (vars & Hb & H).
    apply JsonFacts.bind_Ok in H as (pairs & _ & H). injection H as <-.
    split; [|eauto].
    destruct obj as [ | | | | | | k0 items | | c attrs | c items | ];
      try discriminate Hb; try discriminate Ha.
    simpl in *.
    destruct (descriptors (context self) c); [reflexivity|discriminate Hb].
Qed.

(** ** Instances *)

Lemma convert_root_result_witness :
  (is_array (PColl KTuple [Samples.point (PInt 1) (PInt 2)]) = true
   /\ exists rs,
        PColl KList [PDict [("x", PInt 1); ("y", PInt 2)]] = PColl KList rs
        /\ Forall2 (fun o r => convert Samples.no_converters
                                 Samples.default_serializer o None = Ok r)
                   (iter (PColl KTuple [Samples.point (PInt 1) (PInt 2)])) rs)
  \/ (is_model (context Samples.default_serializer)
        (PColl KTuple [Samples.point (PInt 1) (PInt 2)]) = true
      /\ exists pairs,
           PColl KList [PDict [("x", PInt 1); ("y", PInt 2)]]
           = dict_factory Samples.default_serializer pairs).
Proof.
  apply (@convert_root_result Samples.no_converters
           Samples.default_serializer
           (PColl KTuple [Samples.point (PInt 1) (PInt 2)])
           (PColl KList [PDict [("x", PInt 1); ("y", PInt 2)]])).
  reflexivity.
Defined.

Lemma convert_model_ignores_field_witness :
  convert Samples.no_converters Samples.default_serializer
    (Samples.point (PInt 1) (PInt 2)) (Some Samples.var_items)
  = convert Samples.no_converters Samples.default_serializer
      (Samples.point (PInt 1) (PInt 2)) None.
Proof.
  apply (@convert_model_ignores_field Samples.no_converters
           Samples.default_serializer (Samples.point (PInt 1) (PInt 2))
           (Some Samples.var_items) None).
  reflexivity.
Defined.

Lemma convert_uses_format_only_witness :
  convert Samples.decimal_converters Samples.default_serializer
    (PColl KList [POpaque "Decimal" "1.5"; PNone])
    (Some MoreSamples.var_start)
  = convert Samples.decimal_converters Samples.default_serializer
      (PColl KList [POpaque "Decimal" "1.5"; PNone])
      (Some MoreSamples.var_end).
Proof.
  apply (@convert_uses_format_only Samples.decimal_converters
           Samples.default_serializer
           (PColl KList [POpaque "Decimal" "1.5"; PNone])
           MoreSamples.var_start MoreSamples.var_end).
  reflexivity.
Defined.


Lemma convert_model_first_failure_witness :
  convert Samples.no_converters Samples.default_serializer
    MoreSamples.point_without_y None
  = Raise (AttributeError (TRecord "Point") "y").
Proof.
  apply (@convert_model_first_failure Samples.no_converters
           Samples.default_serializer "Point" [("x", PInt 1)] None
           [Samples.var_x] [] Samples.var_y [PInt 1]
           (AttributeError (TRecord "Point") "y")).
  - reflexivity.
  - repeat constructor. exists (PInt 1); split; reflexivity.
  - left; split; reflexivity.
Defined.

Lemma convert_model_shared_names_witness :
  exists d,
    convert Samples.no_converters Samples.default_serializer
      (PModel "Twin" [("v_element", PInt 1); ("v_attribute", PInt 2)]) None
    = Ok (PDict d)
    /\ keys d
       = first_occurrences
           (map local_name [Samples.var_v_element; Samples.var_v_attribute])
    /\ NoDup (keys d)
    /\ forall k,
         lookup k d
         = last_value k
             (combine
                (map local_name
                   [Samples.var_v_element; Samples.var_v_attribute])
                [PInt 1; PInt 2]).
Proof.
  apply (@convert_model_shared_names Samples.no_converters
           Samples.default_serializer "Twin"
           [("v_element", PInt 1); ("v_attribute", PInt 2)] None
           [Samples.var_v_element; Samples.var_v_attribute]
           [PInt 1; PInt 2]).
  - reflexivity.
  - reflexivity.
  - repeat constructor.
    + exists (PInt 1); split; reflexivity.
    + exists (PInt 2); split; reflexivity.
Defined.

Lemma convert_model_omit_null_witness :
  (is_array (Samples.point (PInt 1) PNone) = false
   /\ exists d, PDict [("x", PInt 1)] = PDict d
                /\ NoDup (keys d)
                /\ Forall (fun kv => snd kv <> PNone) d)
  \/ (is_array (Samples.point (PInt 1) PNone) = true
      /\ exists rs, PDict [("x", PInt 1)] = PColl KList rs).
Proof.
  apply (@convert_model_omit_null Samples.no_converters
           Samples.omit_null_serializer (Samples.point (PInt 1) PNone) None
           (PDict [("x", PInt 1)])).
  - reflexivity.
  - reflexivity.
  - reflexivity.
Defined.

Lemma convert_collection_iff_witness :
  convert Samples.no_converters Samples.default_serializer
    (PColl KTuple [PInt 1; Samples.code_A]) (Some Samples.var_items)
  = Ok (PColl KTuple [PInt 1; PStr "A"])
  <-> exists rs,
        PColl KTuple [PInt 1; PStr "A"] = PColl KTuple rs /\
        Forall2 (fun o r => convert Samples.no_converters
                              Samples.default_serializer o
                              (Some Samples.var_items) = Ok r)
                [PInt 1; Samples.code_A] rs.
Proof.
  apply (@convert_collection_iff Samples.no_converters
           Samples.default_serializer KTuple [PInt 1; Samples.code_A]
           Samples.var_items (PColl KTuple [PInt 1; PStr "A"])).
Defined.

End JsonMore.

(* ================================================================== *)
(** * Further facts about the serializer on an object store           *)
(* ================================================================== *)

Module StoreMore.
Import Py Json Store.

Lemma bindM_raise {A B} (c : M A) (k : A -> M B) h h' e :
  c h = (h', Raise e) -> bindM c k h = (h', Raise e).
Proof. intros E. unfold bindM. rewrite E. reflexivity. Qed.

(** X13.  A list or tuple that holds nothing but itself never
    converts: whatever the depth allowed to the recursion, [convert]
    ends in RecursionError, at the root and under a field alike, and
    allocates nothing. *)
Theorem convert_self_reference
    (converter : Store.ConverterFactory) (context : XmlContext)
    (dict_factory : list (string * value) -> list (string * value))
    (h : store) (l : loc) (k : coll) (fuel : nat) (var : option XmlVar) :
  nth_error h l = Some (OColl k [VRef l]) ->
  Store.convert converter context dict_factory fuel (VRef l) var h
  = (h, Raise RecursionError).
Proof.
  intros Hl. revert var. induction fuel as [|fuel IH]; intros var.
  - reflexivity.
  - cbn [Store.convert]. unfold bindM at 1. cbn [get].
    assert (Hm : Store.is_model context h (VRef l) = false)
      by (unfold Store.is_model; simpl; rewrite Hl; reflexivity).
    assert (Ha : Store.is_array h (VRef l) = true)
      by (unfold Store.is_array; simpl; rewrite Hl; reflexivity).
    assert (Hi : Store.iter h (VRef l) = [VRef l])
      by (unfold Store.iter; simpl; rewrite Hl; reflexivity).
    rewrite Hm, Ha, Hi.
    destruct var as [f|]; cbn [var_is_None orb].
    + unfold Store.construct.
      assert (Ht : container_of (Store.type_of h (VRef l)) = Some k)
        by (simpl; rewrite Hl; destruct k; reflexivity).
      rewrite Ht. destruct k.
      * apply bindM_raise. cbn [Store.mapM]. apply bindM_raise. apply IH.
      * apply bindM_raise. cbn [Store.mapM]. apply bindM_raise. apply IH.
    + apply bindM_raise. cbn [Store.mapM]. apply bindM_raise. apply IH.
Qed.

Lemma bind_Ok_inv {A B} (c : M A) (k : A -> M B) h h' v :
  bindM c k h = (h', Ok v) ->
  exists h1 a, c h = (h1, Ok a) /\ k a h1 = (h', Ok v).
Proof.
  unfold bindM. destruct (c h) as [h1 [a|e]]; [|discriminate]. eauto.
Qed.

Lemma mapM_length_le {A B} (f : A -> M B) xs :
  (forall x h1 h2 r, f x h1 = (h2, r) ->
                     List.length h1 <= List.length h2) ->
  forall h h' r, Store.mapM f xs h = (h', r) ->
                 List.length h <= List.length h'.
Proof.
  intros Hf. induction xs as [|x xs IH]; intros h h' r E.
  - injection E as <- _. lia.
  - cbn [Store.mapM] in E. unfold bindM at 1 in E.
    destruct (f x h) as [h1 [y|e]] eqn:Ef.
    + apply Hf in Ef. unfold bindM at 1 in E.
      destruct (Store.mapM f xs h1) as [h2 [ys|e]] eqn:Er;
        apply IH in Er; injection E as <- _; lia.
    + apply Hf in Ef. injection E as <- _. exact Ef.
Qed.

Lemma mapM_Ok_length {A B} (f : A -> M B) xs :
  forall h h' ys, Store.mapM f xs h = (h', Ok ys) ->
                  List.length ys = List.length xs.
Proof.
  induction xs as [|x xs IH]; intros h h' ys E.
  - injection E as _ <-. reflexivity.
  - cbn [Store.mapM] in E.
    apply bind_Ok_inv in E as (h1 & y & _ & E).
    apply bind_Ok_inv in E as (h2 & ys' & Er & E).
    injection E as _ <-. simpl. f_equal. exact (IH _ _ _ Er).
Qed.

Lemma convert_length_le
    (converter : Store.ConverterFactory) (context : XmlContext)
    (dict_factory : list (string * value) -> list (string * value))
    (fuel : nat) (obj : value) (var : option XmlVar)
    (h h' : store) (r : result value) :
  Store.convert converter context dict_factory fuel obj var h = (h', r) ->
  List.length h <= List.length h'.
Proof.
  intros E. apply StoreFacts.convert_grows in E as [ext ->].
  rewrite length_app. lia.
Qed.

Lemma alloc_new (h h1 : store) (o : object) :
  List.length h <= List.length h1 ->
  exists l, VRef (List.length h1) = VRef l
            /\ List.length h <= l
            /\ nth_error (h1 ++ [o]) l = Some o.
Proof.
  intros Hle. exists (List.length h1). repeat split; [exact Hle|].
  rewrite nth_error_app2, Nat.sub_diag; [reflexivity | lia].
Qed.

(** X14.  A list or a described record is never returned as it is, and
    neither is a tuple that has an element: when [convert] returns for
    a collection or a described record, the result is an object
    allocated by that call, a container or a map.  The one exception is
    a tuple without elements under an enclosing field, which gives the
    empty tuple. *)
Theorem convert_copies_containers
    (converter : Store.ConverterFactory) (context : XmlContext)
    (dict_factory : list (string * value) -> list (string * value))
    (fuel : nat) (obj : value) (var : option XmlVar)
    (h h' : store) (v : value) :
  Store.is_array h obj = true \/ Store.is_model context h obj = true ->
  Store.convert converter context dict_factory fuel obj var h = (h', Ok v) ->
  (exists l,
     v = VRef l
     /\ List.length h <= l
     /\ ((exists k items, nth_error h' l = Some (OColl k items))
         \/ (exists items, nth_error h' l = Some (ODict items))))
  \/ (v = VScalar STuple0
      /\ h' = h
      /\ var <> None
      /\ Store.type_of h obj = TTuple
      /\ Store.iter h obj = []).
Proof.
  intros Hkind E. destruct fuel as [|fuel]; [discriminate E|].
  cbn [Store.convert] in E. unfold bindM at 1 in E. cbn [get] in E.
  assert (Hrec : forall w x h1 h2 r,
            Store.convert converter context dict_factory fuel x w h1
            = (h2, r) -> List.length h1 <= List.length h2)
    by (intros w x h1 h2 r; apply convert_length_le).
  destruct (var_is_None var || Store.is_model context h obj) eqn:H1.
  - left. destruct (Store.is_array h obj) eqn:Ha.
    + apply bind_Ok_inv in E as (h1 & ys & Em & E).
      injection E as <- <-.
      destruct (@alloc_new h h1 (OColl KList ys)) as (l & El & Hle & Hl).
      { eapply mapM_length_le; [|exact Em]. intros x; apply Hrec. }
      exists l. split; [exact El|]. split; [exact Hle|]. left; eauto.
    + apply bind_Ok_inv in E as (h0 & vars & Eb & E).
      injection Eb as <- _.
      apply bind_Ok_inv in E as (h1 & pairs & Em & E).
      injection E as <- <-.
      destruct (@alloc_new h h1 (ODict (dict_factory pairs)))
        as (l & El & Hle & Hl).
      { eapply mapM_length_le; [|exact Em]. intros x ha hb r Ex.
        unfold bindM at 1 in Ex. unfold Store.getattr in Ex.
        assert (G : forall y : store * result value,
                  (exists value, y = (ha, Ok value))
                  \/ (exists e, y = (ha, Raise e)) ->
                  match y with
                  | (hc, Ok a) =>
                      bindM (Store.convert converter context dict_factory
                               fuel a (Some x))
                            (fun r0 => ret (local_name x, r0)) hc
                  | (hc, Raise e) => (hc, Raise e)
                  end = (hb, r) ->
                  List.length ha <= List.length hb).
        { intros y [[value ->]|[e ->]] Ey.
          - unfold bindM in Ey.
            destruct (Store.convert converter context dict_factory fuel
                        value (Some x) ha) as [hc [a|e]] eqn:Ec;
              apply Hrec in Ec; injection Ey as <- _; exact Ec.
          - injection Ey as <- _. lia. }
        refine (G _ _ Ex).
        destruct (deref ha obj) as [[| | |c attrs| |]|]; eauto.
        destruct (Store.lookup (name x) attrs); eauto. }
      exists l. split; [exact El|]. split; [exact Hle|]. right; eauto.
  - apply orb_false_iff in H1 as [Hv Hm].
    destruct Hkind as [Ha|Hm']; [|congruence]. rewrite Ha in E.
    unfold Store.construct in E.
    destruct (container_of (Store.type_of h obj)) as [[|]|] eqn:Ht;
      [| |discriminate E].
    + left. apply bind_Ok_inv in E as (h1 & ys & Em & E).
      injection E as <- <-.
      destruct (@alloc_new h h1 (OColl KList ys)) as (l & El & Hle & Hl).
      { eapply mapM_length_le; [|exact Em]. intros x; apply Hrec. }
      exists l. split; [exact El|]. split; [exact Hle|]. left; eauto.
    + apply bind_Ok_inv in E as (h1 & ys & Em & E).
      destruct ys as [|y ys]; cbn [new_tuple] in E.
      * right. injection E as <- <-.
        pose proof (mapM_Ok_length _ _ _ Em) as Hlen.
        destruct (Store.iter h obj) as [|x xs] eqn:Hi; [|discriminate Hlen].
        injection Em as <-.
        split; [reflexivity|]. split; [reflexivity|].
        split; [destruct var; [discriminate | discriminate Hv]|].
        split; [|reflexivity].
        destruct (Store.type_of h obj); try discriminate Ht; reflexivity.
      * left. injection E as <- <-.
        destruct (@alloc_new h h1 (OColl KTuple (y :: ys)))
          as (l & El & Hle & Hl).
        { eapply mapM_length_le; [|exact Em]. intros x; apply Hrec. }
        exists l. split; [exact El|]. split; [exact Hle|]. left; eauto.
Qed.

Lemma convert_self_reference_witness :
  Store.convert StoreSamples.no_converters Samples.sample_context
    Store.dict 50 (VRef 0) (Some Samples.var_items) MoreSamples.loop_store
  = (MoreSamples.loop_store, Raise RecursionError).
Proof.
  apply (@convert_self_reference StoreSamples.no_converters
           Samples.sample_context Store.dict MoreSamples.loop_store 0
           KList 50 (Some Samples.var_items)).
  reflexivity.
Defined.

Lemma convert_copies_containers_witness :
  (exists l,
     VRef 1 = VRef l
     /\ List.length MoreSamples.list_store <= l
     /\ ((exists k items,
            nth_error
              (MoreSamples.list_store
               ++ [OColl KList [VScalar (SInt 1); VScalar (SInt 2)]]) l
            = Some (OColl k items))
         \/ (exists items,
               nth_error
                 (MoreSamples.list_store
                  ++ [OColl KList [VScalar (SInt 1); VScalar (SInt 2)]]) l
               = Some (ODict items))))
  \/ (VRef 1 = VScalar STuple0
      /\ MoreSamples.list_store
         ++ [OColl KList [VScalar (SInt 1); VScalar (SInt 2)]]
         = MoreSamples.list_store
      /\ Some Samples.var_items <> None
      /\ Store.type_of MoreSamples.list_store (VRef 0) = TTuple
      /\ Store.iter MoreSamples.list_store (VRef 0) = []).
Proof.
  apply (@convert_copies_containers StoreSamples.no_converters
           Samples.sample_context Store.dict 8 (VRef 0)
           (Some Samples.var_items) MoreSamples.list_store
           (MoreSamples.list_store
            ++ [OColl KList [VScalar (SInt 1); VScalar (SInt 2)]])
           (VRef 1)).
  - left; reflexivity.
  - reflexivity.
Defined.

End StoreMore.

(* ================================================================== *)
(** * Further facts about [resolve_source]                            *)
(* ================================================================== *)

Module CliMore.
Import Cli.

Lemma substring_whole s : String.substring 0 (String.length s) s = s.
Proof. induction s as [|c s IH]; simpl; [reflexivity | rewrite IH; reflexivity]. Qed.

Lemma substring_skip a p :
  String.substring (String.length a) (String.length p) (String.append a p) = p.
Proof.
  induction a as [|c a IH]; simpl; [apply substring_whole | exact IH].
Qed.

Lemma length_append a b :
  String.length (String.append a b) = String.length a + String.length b.
Proof. induction a as [|c a IH]; simpl; [reflexivity | rewrite IH; reflexivity]. Qed.

Lemma substring_suffix n s p :
  n + String.length p = String.length s ->
  String.substring n (String.length p) s = p ->
  exists pre, s = String.append pre p.
Proof.
  revert s. induction n as [|n IH]; intros s Hlen Hsub.
  - exists EmptyString. simpl in *. rewrite Hlen, substring_whole in Hsub.
    exact Hsub.
  - destruct s as [|c s]; [discriminate Hlen|].
    simpl in Hlen, Hsub. injection Hlen as Hlen.
    destruct (IH s Hlen Hsub) as (pre & ->).
    exists (String c pre); reflexivity.
Qed.

(** [s.endswith(p)] holds exactly when [s] is some text followed by
    [p]. *)
Lemma endswith_iff s p :
  endswith s p = true <-> exists pre, s = String.append pre p.
Proof.
  unfold endswith. split.
  - intros H. apply andb_true_iff in H as [Hle Heq].
    apply Nat.leb_le in Hle. apply String.eqb_eq in Heq.
    apply (substring_suffix (String.length s - String.length p)); [lia|].
    exact Heq.
  - intros (pre & ->). rewrite length_append. apply andb_true_iff. split.
    + apply Nat.leb_le; lia.
    + replace (String.length pre + String.length p - String.length p)
        with (String.length pre) by lia.
      rewrite substring_skip. apply String.eqb_refl.
Qed.

Lemma common_suffix a p b q :
  String.append a p = String.append b q ->
  String.length q <= String.length p ->
  exists c, p = String.append c q.
Proof.
  revert b. induction a as [|x a IH]; intros b E Hle.
  - exists b; exact E.
  - destruct b as [|y b].
    + simpl in E. subst q. simpl in Hle. rewrite length_append in Hle. lia.
    + simpl in E. injection E as _ E. exact (IH b E Hle).
Qed.

(** Two suffixes of one name: the shorter is a suffix of the longer. *)
Lemma endswith_both s p q :
  endswith s p = true -> endswith s q = true ->
  String.length q <= String.length p ->
  endswith p q = true.
Proof.
  intros Hp Hq Hle.
  apply endswith_iff in Hp as (a & ->). apply endswith_iff in Hq as (b & E).
  apply endswith_iff. exact (common_suffix a p b q E Hle).
Qed.

(** The extensions [resolve_source] looks for. *)
Lemma extensions_exclusive name e1 e2 :
  In e1 ["wsdl"; "xsd"; "xml"; "json"] ->
  In e2 ["wsdl"; "xsd"; "xml"; "json"] ->
  endswith name (String.append "." e1) = true ->
  endswith name (String.append "." e2) = true ->
  e1 = e2.
Proof.
  intros H1 H2 E1 E2.
  assert (G : endswith (String.append "." e1) (String.append "." e2) = true
              \/ endswith (String.append "." e2) (String.append "." e1) = true).
  { destruct (Nat.le_ge_cases (String.length (String.append "." e2))
                              (String.length (String.append "." e1))).
    - left; eapply endswith_both; eassumption.
    - right; eapply endswith_both; eassumption. }
  revert G. simpl in H1, H2.
  repeat match goal with
         | H : _ \/ _ |- _ => destruct H
         | H : False |- _ => destruct H
         end; subst; try reflexivity; intros [G|G]; discriminate G.
Qed.

Lemma resolve_source_verbatim_dec source :
  (occurs_in "://" source /\ ~ begins_with "file://" source)
  \/ ~ (occurs_in "://" source /\ ~ begins_with "file://" source).
Proof.
  destruct (str_find source "://" >? -1)%Z eqn:Hf.
  - destruct (String.prefix "file://" source) eqn:Hp.
    + right. intros [_ H]. apply H.
      apply CliFacts.prefix_begins_with; exact Hp.
    + left. split; [apply CliFacts.str_find_occurs_in; exact Hf|].
      intros H. apply CliFacts.prefix_begins_with in H. congruence.
  - right. intros [H _]. apply CliFacts.str_find_occurs_in in H. congruence.
Qed.

Lemma resolve_source_branches fs source :
  (occurs_in "://" source /\ ~ begins_with "file://" source ->
   resolve_source fs source = [source])
  /\ (~ (occurs_in "://" source /\ ~ begins_with "file://" source) ->
      resolve_source fs source
      = if is_dir fs (resolve fs source)
        then flat_map (uris_with_extension fs (resolve fs source))
                      ["wsdl"; "xsd"; "xml"; "json"]
        else [as_uri fs (resolve fs source)]).
Proof.
  unfold resolve_source, startswith. split.
  - intros [Ho Hb].
    apply CliFacts.str_find_occurs_in in Ho. rewrite Ho.
    destruct (String.prefix "file://" source) eqn:Hp; [|reflexivity].
    exfalso; apply Hb, CliFacts.prefix_begins_with; exact Hp.
  - intros Hn.
    assert (E : (str_find source "://" >? -1)%Z
                && negb (String.prefix "file://" source) = false).
    { destruct (str_find source "://" >? -1)%Z eqn:Hf; [|reflexivity].
      destruct (String.prefix "file://" source) eqn:Hp; [reflexivity|].
      exfalso; apply Hn. split.
      - apply CliFacts.str_find_occurs_in; exact Hf.
      - intros H. apply CliFacts.prefix_begins_with in H. congruence. }
    rewrite E. destruct (is_dir fs (resolve fs source)); [|reflexivity].
    cbn [flat_map]. rewrite app_nil_r, <- !CliFacts.glob_star. reflexivity.
Qed.

(** X15.  For a directory, [resolve_source] yields exactly the URIs of
    the entries whose name is some text followed by [.wsdl], [.xsd],
    [.xml] or [.json]: every such entry is yielded and nothing else
    is. *)
Theorem resolve_source_directory_members
    (fs : FileSystem) (source : string) (u : string) :
  ~ (occurs_in "://" source /\ ~ begins_with "file://" source) ->
  is_dir fs (resolve fs source) = true ->
  In u (resolve_source fs source)
  <-> exists name ext stem,
        In name (scandir fs (resolve fs source))
        /\ In ext ["wsdl"; "xsd"; "xml"; "json"]
        /\ name = String.append stem (String.append "." ext)
        /\ u = as_uri fs (joinpath fs (resolve fs source) name).
Proof.
  intros Hn Hd.
  rewrite (proj2 (resolve_source_branches fs source) Hn), Hd.
  rewrite in_flat_map. unfold uris_with_extension. split.
  - intros (ext & Hext & Hu).
    apply in_map_iff in Hu as (name & <- & Hin).
    apply filter_In in Hin as [Hin He].
    apply endswith_iff in He as (stem & ->).
    exists (String.append stem (String.append "." ext)), ext, stem. auto.
  - intros (name & ext & stem & Hin & Hext & -> & ->).
    exists ext. split; [exact Hext|].
    apply in_map_iff. eexists. split; [reflexivity|].
    apply filter_In. split; [exact Hin|].
    apply endswith_iff. exists stem; reflexivity.
Qed.

(** X16.  [resolve_source] yields nothing exactly when the source is
    resolved as a path, the path is a directory, and no entry of it
    ends with one of the four extensions; a URL and a path that is not a
    directory always yield one result. *)
Theorem resolve_source_empty (fs : FileSystem) (source : string) :
  resolve_source fs source = []
  <-> ~ (occurs_in "://" source /\ ~ begins_with "file://" source)
      /\ is_dir fs (resolve fs source) = true
      /\ forall name ext,
           In name (scandir fs (resolve fs source)) ->
           In ext ["wsdl"; "xsd"; "xml"; "json"] ->
           endswith name (String.append "." ext) = false.
Proof.
  destruct (resolve_source_branches fs source) as [Hv Hp].
  destruct (resolve_source_verbatim_dec source) as [Hc|Hc].
  - rewrite (Hv Hc). split; [discriminate | intros [H _]; contradiction].
  - rewrite (Hp Hc). destruct (is_dir fs (resolve fs source)).
    + split.
      * intros E. split; [exact Hc|]. split; [reflexivity|].
        intros name ext Hin Hext.
        destruct (endswith name (String.append "." ext)) eqn:He;
          [|reflexivity].
        exfalso.
        assert (Hu : In (as_uri fs (joinpath fs (resolve fs source) name))
                        (flat_map (uris_with_extension fs (resolve fs source))
                                  ["wsdl"; "xsd"; "xml"; "json"])).
        { apply in_flat_map. exists ext. split; [exact Hext|].
          unfold uris_with_extension. apply in_map_iff.
          exists name. split; [reflexivity|].
          apply filter_In; auto. }
        rewrite E in Hu. exact Hu.
      * intros (_ & _ & Hnone).
        assert (G : forall ext, In ext ["wsdl"; "xsd"; "xml"; "json"] ->
                      uris_with_extension fs (resolve fs source) ext = []).
        { intros ext Hext. unfold uris_with_extension.
          replace (filter _ (scandir fs (resolve fs source)))
            with (@nil string); [reflexivity|].
          symmetry. induction (scandir fs (resolve fs source)) as [|a l IH];
            [reflexivity|].
          cbn [filter]. rewrite (Hnone a ext (or_introl eq_refl) Hext).
          apply IH. intros name e Hin. apply Hnone; right; exact Hin. }
        cbn [flat_map]. rewrite !G by (simpl; auto). reflexivity.
    + split; [discriminate | intros (_ & H & _); discriminate H].
Qed.

Lemma filter_partition_length {A} (p1 p2 p3 p4 : A -> bool) (l : list A) :
  (forall x, In x l ->
     (p1 x = true -> p2 x = false /\ p3 x = false /\ p4 x = false)
     /\ (p2 x = true -> p3 x = false /\ p4 x = false)
     /\ (p3 x = true -> p4 x = false)) ->
  List.length (filter p1 l) + (List.length (filter p2 l)
    + (List.length (filter p3 l) + List.length (filter p4 l)))
  = List.length (filter (fun x => p1 x || p2 x || p3 x || p4 x) l).
Proof.
  induction l as [|a l IH]; intros H; [reflexivity|].
  assert (IH' := IH (fun x Hx => H x (or_intror Hx))).
  destruct (H a (or_introl eq_refl)) as (H1 & H2 & H3).
  simpl.
  destruct (p1 a) eqn:E1.
  - destruct (H1 eq_refl) as (-> & -> & ->). simpl. lia.
  - destruct (p2 a) eqn:E2.
    + destruct (H2 eq_refl) as (-> & ->). simpl. lia.
    + destruct (p3 a) eqn:E3.
      * rewrite (H3 eq_refl). simpl. lia.
      * destruct (p4 a); simpl; lia.
Qed.

(** X17.  For a directory, [resolve_source] yields one URI for each
    entry that ends with one of the four extensions: no entry is yielded
    twice, since a name ends with at most one of them. *)
Theorem resolve_source_directory_count
    (fs : FileSystem) (source : string) :
  ~ (occurs_in "://" source /\ ~ begins_with "file://" source) ->
  is_dir fs (resolve fs source) = true ->
  List.length (resolve_source fs source)
  = List.length
      (filter (fun name => endswith name ".wsdl" || endswith name ".xsd"
                           || endswith name ".xml" || endswith name ".json")
              (scandir fs (resolve fs source))).
Proof.
  intros Hn Hd.
  rewrite (proj2 (resolve_source_branches fs source) Hn), Hd.
  cbn [flat_map]. rewrite app_nil_r, !length_app.
  unfold uris_with_extension. rewrite !length_map.
  cbn [String.append].
  apply filter_partition_length.
  intros name _.
  assert (X : forall e1 e2,
            In e1 ["wsdl"; "xsd"; "xml"; "json"] ->
            In e2 ["wsdl"; "xsd"; "xml"; "json"] ->
            e1 <> e2 ->
            endswith name (String.append "." e1) = true ->
            endswith name (String.append "." e2) = false).
  { intros e1 e2 H1 H2 Hne E1.
    destruct (endswith name (String.append "." e2)) eqn:E2; [|reflexivity].
    exfalso; apply Hne. eapply extensions_exclusive; eassumption. }
  split; [intros E; split; [|split]
        | split; [intros E; split | intros E]].
  - apply (X "wsdl" "xsd"); simpl; auto 6; discriminate.
  - apply (X "wsdl" "xml"); simpl; auto 6; discriminate.
  - apply (X "wsdl" "json"); simpl; auto 6; discriminate.
  - apply (X "xsd" "xml"); simpl; auto 6; discriminate.
  - apply (X "xsd" "json"); simpl; auto 6; discriminate.
  - apply (X "xml" "json"); simpl; auto 6; discriminate.
Qed.

Lemma resolve_source_directory_members_witness :
  In "file:///schemas/a.wsdl"
     (resolve_source CliSamples.sample_fs "/schemas")
  <-> exists name ext stem,
        In name (scandir CliSamples.sample_fs
                   (resolve CliSamples.sample_fs "/schemas"))
        /\ In ext ["wsdl"; "xsd"; "xml"; "json"]
        /\ name = String.append stem (String.append "." ext)
        /\ "file:///schemas/a.wsdl"
           = as_uri CliSamples.sample_fs
               (joinpath CliSamples.sample_fs
                  (resolve CliSamples.sample_fs "/schemas") name).
Proof.
  apply (@resolve_source_directory_members CliSamples.sample_fs
           "/schemas" "file:///schemas/a.wsdl").
  - intros [H _]. apply CliFacts.str_find_occurs_in in H. discriminate H.
  - reflexivity.
Defined.

Lemma resolve_source_directory_count_witness :
  List.length (resolve_source CliSamples.sample_fs "/schemas") = 4.
Proof.
  apply (@resolve_source_directory_count CliSamples.sample_fs "/schemas").
  - intros [H _]. apply CliFacts.str_find_occurs_in in H. discriminate H.
  - reflexivity.
Defined.

End CliMore.

(* ================================================================== *)
(** * Facts about [generate]                                          *)
(* ================================================================== *)

Module GenerateFacts.
Import Cli Generate.

Section Facts.
Variables FormatRest OutputRest ConfigRest : Type.
Variable fs : FileSystem.
Variable path_exists : string -> bool.
Variable read : string -> GeneratorConfig FormatRest OutputRest ConfigRest.
Variable default_config : GeneratorConfig FormatRest OutputRest ConfigRest.
Variable default_format_rest : FormatRest.
Variable FILENAMES : string.

Let run (kwargs : Kwargs) :=
  generate fs path_exists read default_config default_format_rest
    FILENAMES kwargs.

(** X18.  When the configuration file exists, the command line changes
    four settings of it and only when they differ from their defaults:
    the package unless it is [generated], the format value unless it is
    [dataclasses], the structure unless it is the file-names style, and
    relative imports, which it can switch on but not off.  The
    compound-fields flag and the docstring style of the command line
    are ignored, and everything else is as read from the file. *)
Theorem generate_with_config_file (kwargs : Kwargs) :
  path_exists (kw_config kwargs) = true ->
  let file := read (kw_config kwargs) in
  let used := transformer_config (run kwargs) in
  package (output used)
  = (if String.eqb (kw_package kwargs) "generated"
     then package (output file) else kw_package kwargs)
  /\ value (format (output used))
     = (if String.eqb (kw_output kwargs) "dataclasses"
        then value (format (output file)) else kw_output kwargs)
  /\ structure (output used)
     = (if String.eqb (kw_structure_style kwargs) FILENAMES
        then structure (output file) else kw_structure_style kwargs)
  /\ relative_imports (output used)
     = (kw_relative_imports kwargs || relative_imports (output file))
  /\ compound_fields (output used) = compound_fields (output file)
  /\ docstring_style (output used) = docstring_style (output file)
  /\ format_rest (format (output used)) = format_rest (format (output file))
  /\ output_rest (output used) = output_rest (output file)
  /\ config_rest used = config_rest file.
Proof.
  intros He. unfold run, generate. rewrite He.
  destruct (read (kw_config kwargs)) as [[p [v fr] s d ri cf orest] crest].
  destruct (String.eqb (kw_package kwargs) "generated");
    destruct (String.eqb (kw_output kwargs) "dataclasses");
    destruct (String.eqb (kw_structure_style kwargs) FILENAMES);
    destruct (kw_relative_imports kwargs);
    cbn; repeat split; reflexivity.
Qed.

(** X19.  When the configuration file exists and the package, output
    format, structure style and relative-imports options are left at
    their defaults, the transformer runs with the configuration exactly
    as read from the file, whatever the other options are. *)
Theorem generate_defaults_keep_file (kwargs : Kwargs) :
  path_exists (kw_config kwargs) = true ->
  kw_package kwargs = "generated" ->
  kw_output kwargs = "dataclasses" ->
  kw_structure_style kwargs = FILENAMES ->
  kw_relative_imports kwargs = false ->
  transformer_config (run kwargs) = read (kw_config kwargs).
Proof.
  intros He Hp Ho Hs Hr. unfold run, generate.
  rewrite He, Hp, Ho, Hs, Hr, !String.eqb_refl. reflexivity.
Qed.

(** X20.  When there is no configuration file, the package, format
    value, docstring style, compound-fields and relative-imports
    settings are those of the command line; the structure is the one
    of the command line unless that is the file-names style, in which
    case it is the one of a fresh configuration, as is everything
    else. *)
Theorem generate_without_config_file (kwargs : Kwargs) :
  path_exists (kw_config kwargs) = false ->
  let used := transformer_config (run kwargs) in
  package (output used) = kw_package kwargs
  /\ value (format (output used)) = kw_output kwargs
  /\ docstring_style (output used) = kw_docstring_style kwargs
  /\ compound_fields (output used) = kw_compound_fields kwargs
  /\ relative_imports (output used) = kw_relative_imports kwargs
  /\ structure (output used)
     = (if String.eqb (kw_structure_style kwargs) FILENAMES
        then structure (output default_config)
        else kw_structure_style kwargs)
  /\ format_rest (format (output used)) = default_format_rest
  /\ output_rest (output used) = output_rest (output default_config)
  /\ config_rest used = config_rest default_config.
Proof.
  intros He. unfold run, generate. rewrite He.
  destruct default_config as [[p [v fr] s d ri cf orest] crest].
  destruct (String.eqb (kw_output kwargs) "dataclasses");
    destruct (String.eqb (kw_structure_style kwargs) FILENAMES);
    destruct (kw_relative_imports kwargs);
    cbn; repeat split; reflexivity.
Qed.

End Facts.

(** With the file present and [--docstring-style NumPy] given, the
    transformer gets the package, the compound-fields setting and the
    docstring style of the file. *)
Lemma generate_with_config_file_witness :
  package (output (transformer_config
                     (MoreSamples.sample_generate MoreSamples.plain_kwargs)))
  = "api"
  /\ compound_fields
       (output (transformer_config
                  (MoreSamples.sample_generate MoreSamples.plain_kwargs)))
     = true
  /\ docstring_style
       (output (transformer_config
                  (MoreSamples.sample_generate MoreSamples.plain_kwargs)))
     = "Google".
Proof.
  destruct (@generate_with_config_file unit unit unit CliSamples.sample_fs
              MoreSamples.only_xsdata_xml
              (fun _ => MoreSamples.file_config) MoreSamples.fresh_config
              tt "filenames" MoreSamples.plain_kwargs eq_refl)
    as (Hp & _ & _ & _ & Hc & Hd & _).
  split; [exact Hp|]. split; [exact Hc | exact Hd].
Defined.

Lemma generate_defaults_keep_file_witness :
  transformer_config (MoreSamples.sample_generate MoreSamples.plain_kwargs)
  = MoreSamples.file_config.
Proof.
  apply (@generate_defaults_keep_file unit unit unit CliSamples.sample_fs
           MoreSamples.only_xsdata_xml (fun _ => MoreSamples.file_config)
           MoreSamples.fresh_config tt "filenames"
           MoreSamples.plain_kwargs); reflexivity.
Defined.

Lemma generate_without_config_file_witness :
  package (output (transformer_config
                     (MoreSamples.sample_generate
                        MoreSamples.explicit_kwargs)))
  = "models"
  /\ structure
       (output (transformer_config
                  (MoreSamples.sample_generate MoreSamples.explicit_kwargs)))
     = "clusters"
  /\ compound_fields
       (output (transformer_config
                  (MoreSamples.sample_generate MoreSamples.explicit_kwargs)))
     = true.
Proof.
  destruct (@generate_without_config_file unit unit unit
              CliSamples.sample_fs MoreSamples.only_xsdata_xml
              (fun _ => MoreSamples.file_config) MoreSamples.fresh_config
              tt "filenames" MoreSamples.explicit_kwargs eq_refl)
    as (Hp & _ & _ & Hc & _ & Hs & _).
  split; [exact Hp|]. split; [exact Hs | exact Hc].
Defined.

End GenerateFacts.
